(** * NexaCtrl: the Nexa/HomeEasy 433 MHz frame encoder and transmitter

    Shallow embedding of [firmware/NexaCtrl.cpp].  The library packs a
    command into [low_pulse_array], an array of low-pulse durations, two
    entries per frame bit, and [Transmit] plays the array back on the
    transmit pin between two latches, twice, with interrupts masked.

    Integers are [Z].  The firmware is built against [application.h] (ARM,
    ILP32): [unsigned int] and [unsigned long] are 32 bits wide and their
    arithmetic wraps modulo [2^32]; the wrap is written out where the source
    computes on unsigned operands. *)

From Stdlib Require Import ZArith Lia List Bool.
From stdpp Require Import base tactics option list.
Import ListNotations.

#[local] Open Scope Z_scope.

(** ** Machine integers *)

Definition uint_modulus : Z := 2 ^ 32.
Definition ulong_modulus : Z := 2 ^ 32.

Definition wrap_uint (x : Z) : Z := x mod uint_modulus.
Definition wrap_ulong (x : Z) : Z := x mod ulong_modulus.

(** ** Constants of the class (lines 11-32) *)

Definition kPulseHigh : Z := 275.
Definition kPulseLow0 : Z := 275.
Definition kPulseLow1 : Z := 1225.

Definition kLowPulseLength : Z := 64.

Definition kControllerIdOffset : Z := 0.
Definition kControllerIdLength : Z := 26.
Definition kGroupFlagOffset : Z := 26.
Definition kOnFlagOffset : Z := 27.
Definition kDeviceIdOffset : Z := 28.
Definition kDeviceIdLength : Z := 4.
Definition kDimOffset : Z := 32.
Definition kDimLength : Z := 4.

(** ** Bit conversion utilities (lines 219-231) *)

(** [unsigned long power2(int power) { return 1 << power; }]: an [int]
    shift converted to [unsigned long]. *)
Definition power2 (power : Z) : Z := wrap_ulong (Z.shiftl 1 power).

(** The loop of [itob]: [n] iterations remain, [i] is the loop counter and
    [integer] the running remainder.  The element produced at iteration [i]
    is what the source stores in [bits[i]]; the test is [== 1], as in the
    source, and the subtraction is on [unsigned long]. *)
Fixpoint itob_loop (n : nat) (i length integer : Z) : list bool :=
  match n with
  | O => []
  | S n' =>
      if integer / power2 (length - 1 - i) =? 1
      then true :: itob_loop n' (i + 1) length
                     (wrap_ulong (integer - power2 (length - 1 - i)))
      else false :: itob_loop n' (i + 1) length integer
  end.

(** [void itob(bool *bits, unsigned long integer, int length)]: the array
    [bits[0 .. length-1]] after the call. *)
Definition itob (integer length : Z) : list bool :=
  itob_loop (Z.to_nat length) 0 length integer.

(** The standard big-endian binary expansion on [width] digits: digit [i]
    of the sequence is binary digit [width - 1 - i] of [x]. *)
Definition msb_first (width : nat) (x : Z) : list bool :=
  map (fun i : nat => Z.testbit x (Z.of_nat width - 1 - Z.of_nat i)) (seq 0 width).

(** The value a most-significant-first digit sequence denotes. *)
Definition bits_value (bits : list bool) : Z :=
  fold_left (fun acc (b : bool) => 2 * acc + (if b then 1 else 0)) bits 0.

(** ** The hardware interface and the object *)

Inductive PinDirection := OUTPUT | INPUT.
Inductive PinLevel := LOW | HIGH.

(** One call into the platform ([application.h]), in program order. *)
Inductive Event :=
  | pinMode (pin : Z) (mode : PinDirection)
  | pinSetFast (pin : Z)
  | pinResetFast (pin : Z)
  | digitalWrite (pin : Z) (level : PinLevel)
  | delayMicroseconds (us : Z)
  | noInterrupts
  | interrupts.

(** The data members of [class NexaCtrl].  [low_pulse_array] is [None] when
    the pointer does not address a block owned by the object, and
    [Some buf] when it addresses the [int] array [buf]. *)
Record NexaCtrl := mkNexaCtrl {
  tx_pin_ : Z;
  rx_pin_ : Z;
  led_pin_ : Z;
  low_pulse_array : option (list Z)
}.

(** The machine a member function runs on: the object [this], the platform
    calls made so far, and the array indices accessed so far (a ghost log,
    in program order). *)
Record Machine := mkMachine {
  this : NexaCtrl;
  hw : list Event;
  touched : list Z
}.

(** ** A state and failure monad

    [None] is undefined behaviour: an access through a pointer that owns no
    block, or outside the block. *)

Definition M (A : Type) : Type := Machine -> option (A * Machine).

Definition ret {A} (a : A) : M A := fun m => Some (a, m).

Definition bind {A B} (c : M A) (k : A -> M B) : M B :=
  fun m => match c m with
           | Some (a, m') => k a m'
           | None => None
           end.

Declare Scope nexa_scope.
Delimit Scope nexa_scope with nexa.
Notation "x <- c1 ;; c2" := (bind c1 (fun x => c2))
  (at level 100, c1 at next level, right associativity) : nexa_scope.
Notation "c1 ;; c2" := (bind c1 (fun _ => c2))
  (at level 100, right associativity) : nexa_scope.
#[local] Open Scope nexa_scope.

Definition self : M NexaCtrl := fun m => Some (this m, m).

Definition emit (e : Event) : M unit :=
  fun m => Some (tt, mkMachine (this m) (hw m ++ [e]) (touched m)).

Definition in_bounds (idx : Z) (buf : list Z) : bool :=
  (0 <=? idx) && (idx <? Z.of_nat (length buf)).

(** [low_pulse_array[idx] = v]. *)
Definition store (idx v : Z) : M unit :=
  fun m =>
    match low_pulse_array (this m) with
    | Some buf =>
        if in_bounds idx buf then
          Some (tt, mkMachine
                      (mkNexaCtrl (tx_pin_ (this m)) (rx_pin_ (this m)) (led_pin_ (this m))
                                  (Some (<[Z.to_nat idx := v]> buf)))
                      (hw m) (touched m ++ [idx]))
        else None
    | None => None
    end.

(** [low_pulse_array[idx]] as a value. *)
Definition load (idx : Z) : M Z :=
  fun m =>
    match low_pulse_array (this m) with
    | Some buf =>
        if in_bounds idx buf then
          match buf !! Z.to_nat idx with
          | Some v => Some (v, mkMachine (this m) (hw m) (touched m ++ [idx]))
          | None => None
          end
        else None
    | None => None
    end.

(** [for (i = lo; i < hi; i++) body(i)], for a body that leaves [i] and
    [hi] alone. *)
Fixpoint for_from (n : nat) (i : Z) (body : Z -> M unit) : M unit :=
  match n with
  | O => ret tt
  | S n' => body i ;; for_from n' (i + 1) body
  end.

Definition for_loop (lo hi : Z) (body : Z -> M unit) : M unit :=
  for_from (Z.to_nat (hi - lo)) lo body.

(** Assignments to the data members. *)
Definition assign (f : NexaCtrl -> NexaCtrl) : M unit :=
  fun m => Some (tt, mkMachine (f (this m)) (hw m) (touched m)).

Definition set_tx_pin_ (v : Z) (o : NexaCtrl) : NexaCtrl :=
  mkNexaCtrl v (rx_pin_ o) (led_pin_ o) (low_pulse_array o).
Definition set_rx_pin_ (v : Z) (o : NexaCtrl) : NexaCtrl :=
  mkNexaCtrl (tx_pin_ o) v (led_pin_ o) (low_pulse_array o).
Definition set_led_pin_ (v : Z) (o : NexaCtrl) : NexaCtrl :=
  mkNexaCtrl (tx_pin_ o) (rx_pin_ o) v (low_pulse_array o).
Definition set_low_pulse_array (p : option (list Z)) (o : NexaCtrl) : NexaCtrl :=
  mkNexaCtrl (tx_pin_ o) (rx_pin_ o) (led_pin_ o) p.

(** ** Constructors (lines 34-52) *)

(** [calloc(count, sizeof(int))], when the allocation succeeds: a zeroed
    block of [count] entries. *)
Definition calloc (count : Z) : option (list Z) :=
  Some (replicate (Z.to_nat count) 0).

(** [NexaCtrl::NexaCtrl(unsigned int tx_pin, unsigned int rx_pin)], run on
    the storage of [this], whose members hold whatever they held before. *)
Definition NexaCtrl2 (tx_pin rx_pin : Z) : M unit :=
  assign (set_tx_pin_ tx_pin) ;;
  assign (set_rx_pin_ rx_pin) ;;
  o <- self ;;
  emit (pinMode (tx_pin_ o) OUTPUT) ;;
  emit (pinMode (rx_pin_ o) INPUT) ;;
  assign (set_low_pulse_array (calloc (kLowPulseLength + 2 * kDimLength))).

(** Runs [c] with a temporary object in the storage [tmp] as [this], then
    drops the temporary: [this] is again the object it was. *)
Definition on_temporary {A} (tmp : NexaCtrl) (c : M A) : M A :=
  fun m =>
    match c (mkMachine tmp (hw m) (touched m)) with
    | Some (a, m') => Some (a, mkMachine (this m) (hw m') (touched m'))
    | None => None
    end.

(** [NexaCtrl::NexaCtrl(unsigned int tx_pin, unsigned int rx_pin,
    unsigned int led_pin)].  The statement [NexaCtrl(tx_pin, rx_pin);] is an
    expression statement: it constructs a temporary, in storage [tmp], and
    discards it. *)
Definition NexaCtrl3 (tmp : NexaCtrl) (tx_pin rx_pin led_pin : Z) : M unit :=
  assign (set_led_pin_ led_pin) ;;
  o <- self ;;
  emit (pinMode (led_pin_ o) OUTPUT) ;;
  on_temporary tmp (NexaCtrl2 tx_pin rx_pin).

(** ** Private member functions (lines 121-217) *)

(** [void NexaCtrl::SetBit(unsigned int bit_index, bool value)].  The
    product [bit_index*2] and the sum [(bit_index*2) + 1] are computed on
    [unsigned int]. *)
Definition SetBit (bit_index : Z) (value : bool) : M unit :=
  if negb value then
    store (wrap_uint (bit_index * 2)) kPulseLow0 ;;
    store (wrap_uint (wrap_uint (bit_index * 2) + 1)) kPulseLow1
  else
    store (wrap_uint (bit_index * 2)) kPulseLow1 ;;
    store (wrap_uint (wrap_uint (bit_index * 2) + 1)) kPulseLow0.

(** The element [bits[bit]] of a local [bool] array filled by [itob]. *)
Definition bit_at (bits : list bool) (bit : Z) : bool :=
  nth (Z.to_nat bit) bits false.

Definition SetDeviceBits (device_id : Z) : M unit :=
  let ldevice_id := device_id in
  let device := itob ldevice_id kDeviceIdLength in
  for_loop 0 kDeviceIdLength (fun bit =>
    SetBit (kDeviceIdOffset + bit) (bit_at device bit)).

Definition SetControllerBits (controller_id : Z) : M unit :=
  let controller := itob controller_id kControllerIdLength in
  for_loop 0 kControllerIdLength (fun bit =>
    SetBit (kControllerIdOffset + bit) (bit_at controller bit)).

Definition TransmitLatch1 : M unit :=
  o <- self ;;
  emit (pinSetFast (tx_pin_ o)) ;;
  emit (delayMicroseconds kPulseLow0) ;;
  emit (pinResetFast (tx_pin_ o)) ;;
  emit (delayMicroseconds 9900).

Definition TransmitLatch2 : M unit :=
  o <- self ;;
  emit (pinSetFast (tx_pin_ o)) ;;
  emit (delayMicroseconds kPulseLow0) ;;
  emit (pinResetFast (tx_pin_ o)) ;;
  emit (delayMicroseconds 2675).

(** The body of the inner loop of [Transmit]: one wire bit. *)
Definition Transmit_pulse (pulse_count : Z) : M unit :=
  o <- self ;;
  emit (pinSetFast (tx_pin_ o)) ;;
  emit (delayMicroseconds kPulseHigh) ;;
  emit (pinResetFast (tx_pin_ o)) ;;
  d <- load pulse_count ;;
  emit (delayMicroseconds d).

(** The body of the outer loop of [Transmit]: one repeat. *)
Definition Transmit_repeat (pulse_length transmit_count : Z) : M unit :=
  o <- self ;;
  (if led_pin_ o >? 0 then emit (pinSetFast (led_pin_ o)) else ret tt) ;;
  TransmitLatch1 ;;
  TransmitLatch2 ;;
  for_loop 0 pulse_length Transmit_pulse ;;
  TransmitLatch2 ;;
  (if led_pin_ o >? 0 then emit (digitalWrite (led_pin_ o) LOW) else ret tt) ;;
  emit (delayMicroseconds 10000).

Definition Transmit (pulse_length : Z) : M unit :=
  emit noInterrupts ;;
  for_loop 0 2 (Transmit_repeat pulse_length) ;;
  emit interrupts.

(** ** Public commands (lines 54-118) *)

Definition DeviceOn (controller_id device_id : Z) : M unit :=
  SetControllerBits controller_id ;;
  SetBit kGroupFlagOffset false ;;
  SetBit kOnFlagOffset true ;;
  SetDeviceBits device_id ;;
  Transmit kLowPulseLength.

Definition DeviceOff (controller_id device_id : Z) : M unit :=
  SetControllerBits controller_id ;;
  SetBit kGroupFlagOffset false ;;
  SetBit kOnFlagOffset false ;;
  SetDeviceBits device_id ;;
  Transmit kLowPulseLength.

(** [15/100] divides two [int] literals, truncating; the product is on
    [unsigned int]. *)
Definition DeviceDim (controller_id device_id dim_level : Z) : M unit :=
  let dim_level := wrap_uint (dim_level * (15 ÷ 100)) in
  SetControllerBits controller_id ;;
  SetBit kGroupFlagOffset false ;;
  store (kOnFlagOffset * 2) kPulseLow0 ;;
  store (kOnFlagOffset * 2 + 1) kPulseLow0 ;;
  SetDeviceBits device_id ;;
  let dim_bits := itob dim_level kDimLength in
  for_loop 0 kDimLength (fun bit =>
    SetBit (kDimOffset + bit) (bit_at dim_bits bit)) ;;
  Transmit (kLowPulseLength + kDimLength * 2).

Definition GroupOn (controller_id : Z) : M unit :=
  let device_id := 0 in
  SetControllerBits controller_id ;;
  SetDeviceBits device_id ;;
  SetBit kGroupFlagOffset true ;;
  SetBit kOnFlagOffset true ;;
  Transmit kLowPulseLength.

Definition GroupOff (controller_id : Z) : M unit :=
  let device_id := 0 in
  SetControllerBits controller_id ;;
  SetDeviceBits device_id ;;
  SetBit kGroupFlagOffset true ;;
  SetBit kOnFlagOffset false ;;
  Transmit kLowPulseLength.

(** ** Reading the state back *)

(** What a receiver makes of a pair of low-pulse durations, after the
    comments in [SetBit]: "Data 0 = Wire 01", "Data 1 = Wire 10", a short
    low pulse being wire 0 and a long one wire 1. *)
Definition decode_pair (first second : Z) : option bool :=
  if (first =? kPulseLow0) && (second =? kPulseLow1) then Some false
  else if (first =? kPulseLow1) && (second =? kPulseLow0) then Some true
  else None.

(** The two array entries of frame bit [bit_index]. *)
Definition slot_pair (buf : list Z) (bit_index : Z) : option (Z * Z) :=
  match buf !! Z.to_nat (bit_index * 2), buf !! Z.to_nat (bit_index * 2 + 1) with
  | Some first, Some second => Some (first, second)
  | _, _ => None
  end.

(** The pulse pairs of a run of frame bits, in the claim's numbers: a 0 is
    (275, 1225), a 1 is (1225, 275). *)
Definition wire_pair (value : bool) : list Z :=
  if value then [1225; 275] else [275; 1225].

Definition wire (bits : list bool) : list Z := flat_map wire_pair bits.

(** The slot pairs of a field of [len] frame bits starting at bit [offset]. *)
Definition field_slots (buf : list Z) (offset len : Z) : list Z :=
  take (Z.to_nat (len * 2)) (drop (Z.to_nat (offset * 2)) buf).

(** ** The waveform, in the words of the protocol description *)

Definition latch1_wave (tx : Z) : list Event :=
  [pinSetFast tx; delayMicroseconds 275; pinResetFast tx; delayMicroseconds 9900].

Definition latch2_wave (tx : Z) : list Event :=
  [pinSetFast tx; delayMicroseconds 275; pinResetFast tx; delayMicroseconds 2675].

Definition data_wave (tx : Z) (pulses : list Z) : list Event :=
  flat_map (fun low => [pinSetFast tx; delayMicroseconds 275;
                        pinResetFast tx; delayMicroseconds low]) pulses.

Definition led_on_wave (led : Z) : list Event :=
  if led >? 0 then [pinSetFast led] else [].

Definition led_off_wave (led : Z) : list Event :=
  if led >? 0 then [digitalWrite led LOW] else [].

(** One repeat: the status indicator, when one is configured, is raised
    before the first latch and lowered after the closing latch. *)
Definition repeat_wave (tx led : Z) (pulses : list Z) : list Event :=
  led_on_wave led ++ latch1_wave tx ++ latch2_wave tx ++ data_wave tx pulses
    ++ latch2_wave tx ++ led_off_wave led ++ [delayMicroseconds 10000].

Definition transmit_wave (tx led : Z) (pulses : list Z) : list Event :=
  [noInterrupts] ++ repeat_wave tx led pulses ++ repeat_wave tx led pulses
    ++ [interrupts].

(** ** Interrupt delivery along a trace *)

Definition masks (e : Event) : bool :=
  match e with noInterrupts | interrupts => true | _ => false end.

(** Whether interrupts are delivered after the trace, when [enabled] told
    whether they were before it. *)
Fixpoint irq_after (enabled : bool) (trace : list Event) : bool :=
  match trace with
  | [] => enabled
  | noInterrupts :: rest => irq_after false rest
  | interrupts :: rest => irq_after true rest
  | _ :: rest => irq_after enabled rest
  end.

(** No pin is driven and no delay is started while interrupts are delivered. *)
Fixpoint all_masked (enabled : bool) (trace : list Event) : bool :=
  match trace with
  | [] => true
  | noInterrupts :: rest => all_masked false rest
  | interrupts :: rest => all_masked true rest
  | _ :: rest => negb enabled && all_masked enabled rest
  end.

(** Every logged array index lies in [lo .. hi]. *)
Definition accesses_within (lo hi : Z) (log : list Z) : Prop :=
  Forall (fun idx => lo <= idx <= hi) log.

(** ** The outcome of a command *)

(** A command that went through: the array holds [frame], its first
    [pulse_length] entries were played back, and [log] lists the indices
    accessed. *)
Definition transmitted (t r l : Z) (frame : list Z) (pulse_length : nat)
           (h : list Event) (a log : list Z) : option (unit * Machine) :=
  Some (tt, mkMachine (mkNexaCtrl t r l (Some frame))
                      (h ++ transmit_wave t l (take pulse_length frame))
                      (a ++ log)).

(** The indices the commands access, field by field and in program order:
    the stores of the encoder, then the loads of the two repeats. *)
Definition device_log : list Z :=
  seqZ 0 52 ++ [52; 53] ++ [54; 55] ++ seqZ 56 8 ++ seqZ 0 64 ++ seqZ 0 64.

Definition group_log : list Z :=
  seqZ 0 52 ++ seqZ 56 8 ++ [52; 53] ++ [54; 55] ++ seqZ 0 64 ++ seqZ 0 64.

Definition dim_log : list Z :=
  seqZ 0 52 ++ [52; 53] ++ [54; 55] ++ seqZ 56 8 ++ seqZ 64 8
    ++ seqZ 0 72 ++ seqZ 0 72.

(** ** Observations on a trace *)

(** The time the delays of a trace add up to, in microseconds. *)
Fixpoint busy_time (trace : list Event) : Z :=
  match trace with
  | [] => 0
  | delayMicroseconds us :: rest => us + busy_time rest
  | _ :: rest => busy_time rest
  end.

(** The pin a platform call configures or drives, if any. *)
Definition pin_of (e : Event) : option Z :=
  match e with
  | pinMode pin _ | pinSetFast pin | pinResetFast pin | digitalWrite pin _ => Some pin
  | delayMicroseconds _ | noInterrupts | interrupts => None
  end.

Definition is_pinMode (e : Event) : bool :=
  match e with pinMode _ _ => true | _ => false end.

(** The level of [pin] after the trace, when it was [level] before it. *)
Fixpoint pin_level (pin : Z) (level : PinLevel) (trace : list Event) : PinLevel :=
  match trace with
  | [] => level
  | pinSetFast p :: rest => pin_level pin (if p =? pin then HIGH else level) rest
  | pinResetFast p :: rest => pin_level pin (if p =? pin then LOW else level) rest
  | digitalWrite p lv :: rest => pin_level pin (if p =? pin then lv else level) rest
  | _ :: rest => pin_level pin level rest
  end.

(** The sum of the entries of a pulse sequence. *)
Definition total (pulses : list Z) : Z := fold_right Z.add 0 pulses.

(** ** A client of the public commands *)

(** One call of a public member function. *)
Inductive Command :=
  | CallDeviceOn (controller_id device_id : Z)
  | CallDeviceOff (controller_id device_id : Z)
  | CallDeviceDim (controller_id device_id dim_level : Z)
  | CallGroupOn (controller_id : Z)
  | CallGroupOff (controller_id : Z).

Definition call (cmd : Command) : M unit :=
  match cmd with
  | CallDeviceOn controller_id device_id => DeviceOn controller_id device_id
  | CallDeviceOff controller_id device_id => DeviceOff controller_id device_id
  | CallDeviceDim controller_id device_id dim_level =>
      DeviceDim controller_id device_id dim_level
  | CallGroupOn controller_id => GroupOn controller_id
  | CallGroupOff controller_id => GroupOff controller_id
  end.

(** The calls of a client, one after the other, on the same object. *)
Fixpoint call_all (cmds : list Command) : M unit :=
  match cmds with
  | [] => ret tt
  | cmd :: rest => call cmd ;; call_all rest
  end.

(** The pulse sequence a call is found to play back: the pairs of the
    controller bits, the group flag, the on flag (for a dim call the pair
    (275, 275) in its place), the device bits and, for a dim call, four
    zero bits. *)
Definition played (cmd : Command) : list Z :=
  match cmd with
  | CallDeviceOn controller_id device_id =>
      wire (itob controller_id 26 ++ [false; true] ++ itob device_id 4)
  | CallDeviceOff controller_id device_id =>
      wire (itob controller_id 26 ++ [false; false] ++ itob device_id 4)
  | CallDeviceDim controller_id device_id _ =>
      wire (itob controller_id 26 ++ [false]) ++ [275; 275]
        ++ wire (itob device_id 4 ++ [false; false; false; false])
  | CallGroupOn controller_id =>
      wire (itob controller_id 26 ++ [true; true] ++ [false; false; false; false])
  | CallGroupOff controller_id =>
      wire (itob controller_id 26 ++ [true; false] ++ [false; false; false; false])
  end.

(** The array indices a call accesses. *)
Definition accessed (cmd : Command) : list Z :=
  match cmd with
  | CallDeviceOn _ _ | CallDeviceOff _ _ => device_log
  | CallDeviceDim _ _ _ => dim_log
  | CallGroupOn _ | CallGroupOff _ => group_log
  end.

(** The identifiers of a call fit their fields. *)
Definition in_range (cmd : Command) : Prop :=
  match cmd with
  | CallDeviceOn controller_id device_id
  | CallDeviceOff controller_id device_id
  | CallDeviceDim controller_id device_id _ =>
      0 <= controller_id < 2 ^ 26 /\ 0 <= device_id < 16
  | CallGroupOn controller_id | CallGroupOff controller_id =>
      0 <= controller_id < 2 ^ 26
  end.

(** A call with the dim level, if it has one, put to 0. *)
Definition forget_level (cmd : Command) : Command :=
  match cmd with
  | CallDeviceDim controller_id device_id _ => CallDeviceDim controller_id device_id 0
  | _ => cmd
  end.

(** * Properties *)

(** ** Bit conversion *)

Lemma power2_pow2 (k : Z) : 0 <= k < 32 -> power2 k = 2 ^ k.
Proof.
  intros Hk. unfold power2, wrap_ulong, ulong_modulus.
  rewrite Z.shiftl_1_l. apply Z.mod_small. split.
  - apply Z.pow_nonneg; lia.
  - apply Z.pow_lt_mono_r; lia.
Qed.

Lemma itob_loop_length (n : nat) (i len x : Z) :
  length (itob_loop n i len x) = n.
Proof.
  revert i x. induction n as [|n IH]; intros i x; simpl; [reflexivity|].
  destruct (_ =? 1); simpl; rewrite IH; reflexivity.
Qed.

Lemma itob_length (x len : Z) : length (itob x len) = Z.to_nat len.
Proof. apply itob_loop_length. Qed.

Lemma msb_first_length (w : nat) (x : Z) : length (msb_first w x) = w.
Proof. unfold msb_first. rewrite length_map, length_seq. reflexivity. Qed.

Lemma msb_first_S (w : nat) (x : Z) :
  msb_first (S w) x = Z.testbit x (Z.of_nat w) :: msb_first w (x mod 2 ^ Z.of_nat w).
Proof.
  unfold msb_first. rewrite <- cons_seq. cbn [map]. f_equal.
  - f_equal. lia.
  - rewrite <- seq_shift, map_map. apply map_ext_in.
    intros k Hk. apply in_seq in Hk.
    rewrite Z.mod_pow2_bits_low by lia. f_equal. lia.
Qed.

Lemma high_digit (n x : Z) :
  0 <= n -> 0 <= x < 2 ^ (n + 1) ->
  (x / 2 ^ n =? 1) = Z.testbit x n /\
  (Z.testbit x n = true -> x - 2 ^ n = x mod 2 ^ n) /\
  (Z.testbit x n = false -> x = x mod 2 ^ n).
Proof.
  intros Hn Hx.
  assert (Hp : 0 < 2 ^ n) by (apply Z.pow_pos_nonneg; lia).
  rewrite Z.pow_add_r, Z.pow_1_r in Hx by lia.
  assert (Hq : 0 <= x / 2 ^ n < 2).
  { split; [apply Z.div_pos; lia | apply Z.div_lt_upper_bound; lia]. }
  rewrite (Z.testbit_eqb x n), <- Z.shiftr_div_pow2 by lia.
  rewrite (Z.shiftr_div_pow2 x n) by lia.
  pose proof (Z.div_mod x (2 ^ n)) as Hdm.
  assert (Hcases : x / 2 ^ n = 0 \/ x / 2 ^ n = 1) by lia.
  destruct Hcases as [H0|H1].
  - rewrite H0. cbn. repeat split; intros; try discriminate. lia.
  - rewrite H1. cbn. repeat split; intros; try discriminate. lia.
Qed.

Lemma itob_loop_msb_first (n : nat) (i len x : Z) :
  0 <= i -> len - i = Z.of_nat n -> len <= 32 -> 0 <= x < 2 ^ Z.of_nat n ->
  itob_loop n i len x = msb_first n x.
Proof.
  revert i x. induction n as [|n IH]; intros i x Hi Hn Hlen Hx; [reflexivity|].
  cbn [itob_loop]. rewrite msb_first_S.
  replace (len - 1 - i) with (Z.of_nat n) by lia.
  rewrite power2_pow2 by lia.
  assert (Hp : 0 < 2 ^ Z.of_nat n) by (apply Z.pow_pos_nonneg; lia).
  destruct (high_digit (Z.of_nat n) x) as (Htest & Hone & Hzero); [lia| |].
  { replace (Z.of_nat n + 1) with (Z.of_nat (S n)) by lia. exact Hx. }
  rewrite Htest.
  pose proof (Z.mod_pos_bound x (2 ^ Z.of_nat n) Hp) as Hm.
  destruct (Z.testbit x (Z.of_nat n)) eqn:Hb.
  - f_equal. rewrite Hone by reflexivity.
    unfold wrap_ulong, ulong_modulus. rewrite (Z.mod_small (x mod _)).
    + apply IH; [lia | lia | lia | exact Hm].
    + split; [lia|]. apply Z.lt_le_trans with (2 ^ Z.of_nat n); [lia|].
      apply Z.pow_le_mono_r; lia.
  - f_equal. rewrite <- Hzero by reflexivity.
    apply IH; [lia | lia | lia |]. rewrite Hzero by reflexivity. exact Hm.
Qed.

Lemma itob_msb_first (x len : Z) :
  0 <= len <= 32 -> 0 <= x < 2 ^ len ->
  itob x len = msb_first (Z.to_nat len) x.
Proof.
  intros Hlen Hx. unfold itob.
  apply itob_loop_msb_first; rewrite ?Z2Nat.id; lia.
Qed.

Lemma itob_loop_too_wide (n : nat) (i len x : Z) :
  0 <= i -> len - i = Z.of_nat n -> len <= 32 -> 2 ^ (Z.of_nat n) <= x ->
  itob_loop n i len x = replicate n false.
Proof.
  revert i. induction n as [|n IH]; intros i Hi Hn Hlen Hx; [reflexivity|].
  cbn [itob_loop replicate].
  replace (len - 1 - i) with (Z.of_nat n) by lia.
  rewrite power2_pow2 by lia.
  assert (Hp : 0 < 2 ^ Z.of_nat n) by (apply Z.pow_pos_nonneg; lia).
  replace (Z.of_nat (S n)) with (Z.of_nat n + 1) in Hx by lia.
  rewrite Z.pow_add_r, Z.pow_1_r in Hx by lia.
  assert (Hq : 2 <= x / 2 ^ Z.of_nat n) by (apply Z.div_le_lower_bound; lia).
  destruct (Z.eqb_spec (x / 2 ^ Z.of_nat n) 1) as [He|_]; [lia|].
  f_equal. apply IH; lia.
Qed.

Lemma itob_too_wide (x len : Z) :
  0 <= len <= 32 -> 2 ^ len <= x -> itob x len = replicate (Z.to_nat len) false.
Proof.
  intros Hlen Hx. unfold itob.
  apply itob_loop_too_wide; rewrite ?Z2Nat.id; lia.
Qed.

(** The fields of the scenario [DeviceOn(controllerId=1, deviceId=3)]. *)
Example itob_controller_1 :
  itob 1 kControllerIdLength = replicate 25 false ++ [true].
Proof. vm_compute. reflexivity. Qed.

Example itob_device_3 : itob 3 kDeviceIdLength = [false; false; true; true].
Proof. vm_compute. reflexivity. Qed.

(** ** Running the monad *)

Lemma bind_run {A B} (c : M A) (k : A -> M B) (m m' : Machine) (a : A) :
  c m = Some (a, m') -> bind c k m = k a m'.
Proof. intros H. unfold bind. rewrite H. reflexivity. Qed.

Lemma bind_fail {A B} (c : M A) (k : A -> M B) (m : Machine) :
  c m = None -> bind c k m = None.
Proof. intros H. unfold bind. rewrite H. reflexivity. Qed.

Lemma in_bounds_app (pre post : list Z) (x : Z) :
  in_bounds (Z.of_nat (length pre)) (pre ++ x :: post) = true.
Proof.
  unfold in_bounds. rewrite length_app. cbn [length].
  apply andb_true_intro. split; [apply Z.leb_le | apply Z.ltb_lt]; lia.
Qed.

Lemma store_run (t r l : Z) (pre post : list Z) (x : Z) (h : list Event)
      (a : list Z) (idx v : Z) :
  idx = Z.of_nat (length pre) ->
  store idx v (mkMachine (mkNexaCtrl t r l (Some (pre ++ x :: post))) h a)
  = Some (tt, mkMachine (mkNexaCtrl t r l (Some (pre ++ v :: post))) h (a ++ [idx])).
Proof.
  intros ->. unfold store. cbn [this low_pulse_array tx_pin_ rx_pin_ led_pin_ hw touched].
  rewrite in_bounds_app, Nat2Z.id.
  rewrite insert_app_r_alt by lia. rewrite Nat.sub_diag. reflexivity.
Qed.

Lemma load_run (t r l : Z) (pre post : list Z) (x : Z) (h : list Event)
      (a : list Z) (idx : Z) :
  idx = Z.of_nat (length pre) ->
  load idx (mkMachine (mkNexaCtrl t r l (Some (pre ++ x :: post))) h a)
  = Some (x, mkMachine (mkNexaCtrl t r l (Some (pre ++ x :: post))) h (a ++ [idx])).
Proof.
  intros ->. unfold load. cbn [this low_pulse_array hw touched].
  rewrite in_bounds_app, Nat2Z.id.
  rewrite lookup_app_r by lia. rewrite Nat.sub_diag. reflexivity.
Qed.

Lemma wrap_uint_small (x : Z) : 0 <= x < 2 ^ 32 -> wrap_uint x = x.
Proof. intros H. unfold wrap_uint, uint_modulus. apply Z.mod_small. exact H. Qed.

Lemma wire_pair_constants (value : bool) :
  wire_pair value
  = if negb value then [kPulseLow0; kPulseLow1] else [kPulseLow1; kPulseLow0].
Proof. destruct value; reflexivity. Qed.

Lemma SetBit_run (t r l : Z) (pre post : list Z) (x y : Z) (h : list Event)
      (a : list Z) (bit_index : Z) (value : bool) :
  bit_index * 2 = Z.of_nat (length pre) -> bit_index * 2 + 1 < 2 ^ 32 ->
  SetBit bit_index value
         (mkMachine (mkNexaCtrl t r l (Some (pre ++ x :: y :: post))) h a)
  = Some (tt, mkMachine (mkNexaCtrl t r l (Some (pre ++ wire_pair value ++ post)))
                        h (a ++ [bit_index * 2; bit_index * 2 + 1])).
Proof.
  intros Hpre Hsmall. unfold SetBit.
  rewrite (wrap_uint_small (bit_index * 2)) by lia.
  rewrite (wrap_uint_small (bit_index * 2 + 1)) by lia.
  destruct value; cbn [negb wire_pair].
  - erewrite bind_run by (apply store_run; exact Hpre).
    rewrite (cons_middle _ pre). rewrite (app_assoc pre).
    rewrite store_run by (rewrite length_app; cbn [length]; lia).
    rewrite <- !app_assoc. reflexivity.
  - erewrite bind_run by (apply store_run; exact Hpre).
    rewrite (cons_middle _ pre). rewrite (app_assoc pre).
    rewrite store_run by (rewrite length_app; cbn [length]; lia).
    rewrite <- !app_assoc. reflexivity.
Qed.

Lemma wire_length (bits : list bool) : length (wire bits) = (2 * length bits)%nat.
Proof.
  induction bits as [|b bits IH]; [reflexivity|].
  unfold wire in *. cbn [flat_map]. rewrite length_app, IH.
  destruct b; cbn [wire_pair length]; lia.
Qed.

Lemma bit_at_seqZ (done rest : list bool) :
  map (bit_at (done ++ rest)) (seqZ (Z.of_nat (length done)) (Z.of_nat (length rest)))
  = rest.
Proof.
  revert done. induction rest as [|b rest IH]; intros done; [reflexivity|].
  rewrite seqZ_cons by (cbn [length]; lia). cbn [map]. f_equal.
  - unfold bit_at. rewrite Nat2Z.id. apply nth_middle.
  - specialize (IH (done ++ [b])). rewrite <- app_assoc in IH. cbn [app] in IH.
    rewrite length_app in IH. cbn [length] in IH.
    replace (Z.succ (Z.of_nat (length done))) with (Z.of_nat (length done + 1)) by lia.
    replace (Z.pred (Z.of_nat (length (b :: rest)))) with (Z.of_nat (length rest))
      by (cbn [length]; lia).
    exact IH.
Qed.

Lemma SetBit_loop_run (t r l : Z) (h : list Event) (off : Z) (bits : list bool)
      (n : nat) :
  forall (bit : Z) (pre old post : list Z) (a : list Z),
    length old = (2 * n)%nat -> 0 <= off -> 0 <= bit ->
    (off + bit) * 2 = Z.of_nat (length pre) ->
    (off + bit + Z.of_nat n) * 2 < 2 ^ 32 ->
    for_from n bit (fun b => SetBit (off + b) (bit_at bits b))
             (mkMachine (mkNexaCtrl t r l (Some (pre ++ old ++ post))) h a)
    = Some (tt, mkMachine
                  (mkNexaCtrl t r l
                     (Some (pre ++ wire (map (bit_at bits) (seqZ bit (Z.of_nat n))) ++ post)))
                  h (a ++ seqZ ((off + bit) * 2) (2 * Z.of_nat n))).
Proof.
  induction n as [|n IH]; intros bit pre old post a Hold Hoff Hbit Hpre Hsmall.
  - destruct old; [|discriminate]. cbn. rewrite app_nil_r. reflexivity.
  - destruct old as [|x [|y old]]; cbn [length] in Hold; try lia.
    cbn [for_from]. cbn [app].
    erewrite bind_run by (apply SetBit_run; lia).
    rewrite (app_assoc pre).
    rewrite IH; try lia.
    + rewrite (seqZ_cons bit) by lia. cbn [map]. unfold wire at 2. cbn [flat_map].
      fold (wire (map (bit_at bits) (seqZ (Z.succ bit) (Z.pred (Z.of_nat (S n)))))).
      replace (Z.pred (Z.of_nat (S n))) with (Z.of_nat n) by lia.
      replace (Z.succ bit) with (bit + 1) by lia.
      rewrite <- !app_assoc.
      rewrite (seqZ_cons ((off + bit) * 2)) by lia.
      rewrite (seqZ_cons (Z.succ ((off + bit) * 2))) by lia.
      replace (Z.succ ((off + bit) * 2)) with ((off + bit) * 2 + 1) by lia.
      replace (Z.succ ((off + bit) * 2 + 1)) with ((off + (bit + 1)) * 2) by lia.
      replace (Z.pred (Z.pred (2 * Z.of_nat (S n)))) with (2 * Z.of_nat n) by lia.
      reflexivity.
    + rewrite length_app. destruct (bit_at bits bit); cbn [wire_pair length]; lia.
Qed.

(** The three field-writing loops have one shape. *)
Lemma field_loop_run (t r l : Z) (h : list Event) (a : list Z) (off len : Z)
      (bits : list bool) (pre old post : list Z) :
  length bits = Z.to_nat len -> length old = (2 * length bits)%nat ->
  0 <= off -> 0 <= len -> off * 2 = Z.of_nat (length pre) ->
  (off + len) * 2 < 2 ^ 32 ->
  for_loop 0 len (fun bit => SetBit (off + bit) (bit_at bits bit))
           (mkMachine (mkNexaCtrl t r l (Some (pre ++ old ++ post))) h a)
  = Some (tt, mkMachine (mkNexaCtrl t r l (Some (pre ++ wire bits ++ post)))
                        h (a ++ seqZ (off * 2) (len * 2))).
Proof.
  intros Hbits Hold Hoff Hlen Hpre Hsmall. unfold for_loop.
  rewrite Z.sub_0_r, <- Hbits.
  rewrite (SetBit_loop_run t r l h off bits (length bits) 0 pre old post a); try lia.
  pose proof (bit_at_seqZ [] bits) as Hmap. cbn [length app] in Hmap.
  change (Z.of_nat 0) with 0 in Hmap. rewrite Hmap.
  replace (off + 0) with off by lia.
  replace (2 * Z.of_nat (length bits)) with (len * 2) by lia.
  reflexivity.
Qed.

(** ** The transmitter *)

Lemma TransmitLatch1_run (o : NexaCtrl) (h : list Event) (a : list Z) :
  TransmitLatch1 (mkMachine o h a)
  = Some (tt, mkMachine o (h ++ latch1_wave (tx_pin_ o)) a).
Proof.
  unfold TransmitLatch1, bind, self, emit, latch1_wave. cbn.
  rewrite <- !app_assoc. reflexivity.
Qed.

Lemma TransmitLatch2_run (o : NexaCtrl) (h : list Event) (a : list Z) :
  TransmitLatch2 (mkMachine o h a)
  = Some (tt, mkMachine o (h ++ latch2_wave (tx_pin_ o)) a).
Proof.
  unfold TransmitLatch2, bind, self, emit, latch2_wave. cbn.
  rewrite <- !app_assoc. reflexivity.
Qed.

Lemma data_loop_run (t r l : Z) (post pulses : list Z) :
  forall (i : Z) (pre : list Z) (h : list Event) (a : list Z),
    i = Z.of_nat (length pre) ->
    for_from (length pulses) i Transmit_pulse
      (mkMachine (mkNexaCtrl t r l (Some (pre ++ pulses ++ post))) h a)
    = Some (tt, mkMachine (mkNexaCtrl t r l (Some (pre ++ pulses ++ post)))
                          (h ++ data_wave t pulses)
                          (a ++ seqZ i (Z.of_nat (length pulses)))).
Proof.
  induction pulses as [|x pulses IH]; intros i pre h a Hi.
  - cbn. rewrite !app_nil_r. reflexivity.
  - cbn [length for_from app].
    erewrite bind_run.
    2:{ unfold Transmit_pulse.
        erewrite bind_run by reflexivity.
        erewrite bind_run by reflexivity.
        erewrite bind_run by reflexivity.
        erewrite bind_run by reflexivity.
        erewrite bind_run by (apply load_run; exact Hi).
        reflexivity. }
    cbn [this hw touched tx_pin_].
    rewrite (cons_middle x pre), (app_assoc pre).
    rewrite IH by (rewrite length_app; cbn [length]; lia).
    rewrite (seqZ_cons i) by lia.
    replace (Z.pred (Z.of_nat (S (length pulses)))) with (Z.of_nat (length pulses)) by lia.
    replace (Z.succ i) with (i + 1) by lia.
    unfold data_wave. cbn [flat_map]. rewrite <- !app_assoc. reflexivity.
Qed.

Lemma led_on_run (led : Z) (o : NexaCtrl) (h : list Event) (a : list Z) :
  (if led >? 0 then emit (pinSetFast led) else ret tt) (mkMachine o h a)
  = Some (tt, mkMachine o (h ++ led_on_wave led) a).
Proof.
  unfold led_on_wave. destruct (led >? 0); cbn; rewrite ?app_nil_r; reflexivity.
Qed.

Lemma led_off_run (led : Z) (o : NexaCtrl) (h : list Event) (a : list Z) :
  (if led >? 0 then emit (digitalWrite led LOW) else ret tt) (mkMachine o h a)
  = Some (tt, mkMachine o (h ++ led_off_wave led) a).
Proof.
  unfold led_off_wave. destruct (led >? 0); cbn; rewrite ?app_nil_r; reflexivity.
Qed.

Lemma data_pulses_run (t r l : Z) (buf : list Z) (h : list Event) (a : list Z)
      (pulse_length : Z) :
  pulse_length <= Z.of_nat (length buf) ->
  for_loop 0 pulse_length Transmit_pulse (mkMachine (mkNexaCtrl t r l (Some buf)) h a)
  = Some (tt, mkMachine (mkNexaCtrl t r l (Some buf))
                        (h ++ data_wave t (take (Z.to_nat pulse_length) buf))
                        (a ++ seqZ 0 pulse_length)).
Proof.
  intros Hlen. set (n := Z.to_nat pulse_length).
  assert (Hpulses : length (take n buf) = n) by (rewrite length_take; lia).
  assert (Hseq : seqZ 0 pulse_length = seqZ 0 (Z.of_nat n)).
  { unfold seqZ. f_equal. f_equal. lia. }
  pose proof (data_loop_run t r l (drop n buf) (take n buf) 0 [] h a eq_refl) as Hrun.
  cbn [app] in Hrun. rewrite take_drop, Hpulses in Hrun.
  unfold for_loop. rewrite Z.sub_0_r, Hseq. exact Hrun.
Qed.

Lemma Transmit_repeat_run (t r l : Z) (buf : list Z) (h : list Event) (a : list Z)
      (pulse_length transmit_count : Z) :
  pulse_length <= Z.of_nat (length buf) ->
  Transmit_repeat pulse_length transmit_count
                  (mkMachine (mkNexaCtrl t r l (Some buf)) h a)
  = Some (tt, mkMachine (mkNexaCtrl t r l (Some buf))
                        (h ++ repeat_wave t l (take (Z.to_nat pulse_length) buf))
                        (a ++ seqZ 0 pulse_length)).
Proof.
  intros Hlen. unfold Transmit_repeat.
  erewrite bind_run by reflexivity. cbn [this tx_pin_ led_pin_].
  erewrite bind_run by apply led_on_run.
  erewrite bind_run by apply TransmitLatch1_run.
  erewrite bind_run by apply TransmitLatch2_run.
  erewrite bind_run by (apply data_pulses_run; exact Hlen).
  erewrite bind_run by apply TransmitLatch2_run.
  erewrite bind_run by apply led_off_run.
  unfold emit. cbn [this hw touched tx_pin_ led_pin_]. unfold repeat_wave.
  rewrite <- !app_assoc. reflexivity.
Qed.

Lemma Transmit_run (t r l : Z) (buf : list Z) (h : list Event) (a : list Z)
      (pulse_length : Z) :
  pulse_length <= Z.of_nat (length buf) ->
  Transmit pulse_length (mkMachine (mkNexaCtrl t r l (Some buf)) h a)
  = Some (tt, mkMachine (mkNexaCtrl t r l (Some buf))
                        (h ++ transmit_wave t l (take (Z.to_nat pulse_length) buf))
                        (a ++ seqZ 0 pulse_length ++ seqZ 0 pulse_length)).
Proof.
  intros Hlen. unfold Transmit.
  erewrite bind_run by reflexivity.
  erewrite bind_run.
  2:{ unfold for_loop.
      change (Z.to_nat (2 - 0)) with 2%nat. cbn [for_from].
      erewrite bind_run by (apply Transmit_repeat_run; exact Hlen).
      erewrite bind_run by (apply Transmit_repeat_run; exact Hlen).
      reflexivity. }
  unfold emit, transmit_wave. cbn [this hw touched].
  rewrite <- !app_assoc. reflexivity.
Qed.

(** ** The encoder *)

Lemma split_pair (buf : list Z) (n : nat) :
  (n + 1 < length buf)%nat ->
  exists pre x y post, buf = pre ++ x :: y :: post /\ length pre = n.
Proof.
  intros Hn. exists (take n buf).
  destruct (drop n buf) as [|x [|y post]] eqn:Hdrop.
  - apply (f_equal length) in Hdrop. rewrite length_drop in Hdrop. cbn in Hdrop. lia.
  - apply (f_equal length) in Hdrop. rewrite length_drop in Hdrop. cbn in Hdrop. lia.
  - exists x, y, post. split.
    + rewrite <- Hdrop. symmetry. apply take_drop.
    + rewrite length_take. lia.
Qed.

Lemma slot_pair_app (pre post : list Z) (x y bit_index : Z) :
  bit_index * 2 = Z.of_nat (length pre) ->
  slot_pair (pre ++ x :: y :: post) bit_index = Some (x, y).
Proof.
  intros Hpre. unfold slot_pair.
  replace (Z.to_nat (bit_index * 2)) with (length pre) by lia.
  replace (Z.to_nat (bit_index * 2 + 1)) with (S (length pre)) by lia.
  rewrite !lookup_app_r by lia.
  rewrite Nat.sub_diag. replace (S (length pre) - length pre)%nat with 1%nat by lia.
  reflexivity.
Qed.

Lemma field_slots_app (pre field post : list Z) (offset len : Z) :
  offset * 2 = Z.of_nat (length pre) -> len * 2 = Z.of_nat (length field) ->
  field_slots (pre ++ field ++ post) offset len = field.
Proof.
  intros Hpre Hfield. unfold field_slots.
  rewrite drop_app_length' by lia. apply take_app_length'. lia.
Qed.

Lemma SetControllerBits_run (t r l : Z) (h : list Event) (a : list Z)
      (controller_id : Z) (old post : list Z) :
  length old = 52%nat ->
  SetControllerBits controller_id (mkMachine (mkNexaCtrl t r l (Some (old ++ post))) h a)
  = Some (tt, mkMachine
                (mkNexaCtrl t r l
                   (Some (wire (itob controller_id kControllerIdLength) ++ post)))
                h (a ++ seqZ 0 52)).
Proof.
  intros Hold. unfold SetControllerBits.
  apply (field_loop_run t r l h a kControllerIdOffset kControllerIdLength
           (itob controller_id kControllerIdLength) [] old post);
    rewrite ?itob_length; unfold kControllerIdOffset, kControllerIdLength;
    cbn [length]; lia.
Qed.

Lemma SetDeviceBits_run (t r l : Z) (h : list Event) (a : list Z)
      (device_id : Z) (pre old post : list Z) :
  length pre = 56%nat -> length old = 8%nat ->
  SetDeviceBits device_id (mkMachine (mkNexaCtrl t r l (Some (pre ++ old ++ post))) h a)
  = Some (tt, mkMachine
                (mkNexaCtrl t r l
                   (Some (pre ++ wire (itob device_id kDeviceIdLength) ++ post)))
                h (a ++ seqZ 56 8)).
Proof.
  intros Hpre Hold. unfold SetDeviceBits.
  apply (field_loop_run t r l h a kDeviceIdOffset kDeviceIdLength
           (itob device_id kDeviceIdLength) pre old post);
    rewrite ?itob_length; unfold kDeviceIdOffset, kDeviceIdLength; lia.
Qed.

Lemma dim_loop_run (t r l : Z) (h : list Event) (a : list Z)
      (dim_level : Z) (pre old post : list Z) :
  length pre = 64%nat -> length old = 8%nat ->
  for_loop 0 kDimLength (fun bit =>
    SetBit (kDimOffset + bit) (bit_at (itob dim_level kDimLength) bit))
    (mkMachine (mkNexaCtrl t r l (Some (pre ++ old ++ post))) h a)
  = Some (tt, mkMachine
                (mkNexaCtrl t r l
                   (Some (pre ++ wire (itob dim_level kDimLength) ++ post)))
                h (a ++ seqZ 64 8)).
Proof.
  intros Hpre Hold.
  apply (field_loop_run t r l h a kDimOffset kDimLength
           (itob dim_level kDimLength) pre old post);
    rewrite ?itob_length; unfold kDimOffset, kDimLength; lia.
Qed.

Lemma wire_itob_length (x len : Z) :
  length (wire (itob x len)) = (2 * Z.to_nat len)%nat.
Proof. rewrite wire_length, itob_length. reflexivity. Qed.

Lemma wire_pair_length (value : bool) : length (wire_pair value) = 2%nat.
Proof. destruct value; reflexivity. Qed.

(** The array as the five fields of a frame followed by whatever lies
    behind them: controller, group flag, on flag, device, dim. *)
Section Frame.
Variables (t r l : Z) (h : list Event) (a : list Z).
Variables (C G O D X : list Z).
Hypothesis HC : length C = 52%nat.
Hypothesis HG : length G = 2%nat.
Hypothesis HO : length O = 2%nat.
Hypothesis HD : length D = 8%nat.

Lemma frame_controller (controller_id : Z) :
  SetControllerBits controller_id
    (mkMachine (mkNexaCtrl t r l (Some (C ++ G ++ O ++ D ++ X))) h a)
  = Some (tt, mkMachine
                (mkNexaCtrl t r l
                   (Some (wire (itob controller_id kControllerIdLength)
                            ++ G ++ O ++ D ++ X)))
                h (a ++ seqZ 0 52)).
Proof. apply SetControllerBits_run. exact HC. Qed.

Lemma frame_group_flag (value : bool) :
  SetBit kGroupFlagOffset value
    (mkMachine (mkNexaCtrl t r l (Some (C ++ G ++ O ++ D ++ X))) h a)
  = Some (tt, mkMachine
                (mkNexaCtrl t r l (Some (C ++ wire_pair value ++ O ++ D ++ X)))
                h (a ++ [52; 53])).
Proof.
  destruct G as [|g1 [|g2 [|]]]; try discriminate. cbn [app].
  apply (SetBit_run t r l C (O ++ D ++ X) g1 g2 h a kGroupFlagOffset value);
    unfold kGroupFlagOffset; lia.
Qed.

Lemma frame_on_flag (value : bool) :
  SetBit kOnFlagOffset value
    (mkMachine (mkNexaCtrl t r l (Some (C ++ G ++ O ++ D ++ X))) h a)
  = Some (tt, mkMachine
                (mkNexaCtrl t r l (Some (C ++ G ++ wire_pair value ++ D ++ X)))
                h (a ++ [54; 55])).
Proof.
  destruct O as [|o1 [|o2 [|]]]; try discriminate. cbn [app].
  rewrite !(app_assoc C G).
  apply (SetBit_run t r l (C ++ G) (D ++ X) o1 o2 h a kOnFlagOffset value);
    rewrite ?length_app; unfold kOnFlagOffset; lia.
Qed.

(** The two direct stores of [DeviceDim] into the on-flag slots, and what
    follows them. *)
Lemma frame_dim_marker {B} (k : M B) :
  (store (kOnFlagOffset * 2) kPulseLow0 ;;
   store (kOnFlagOffset * 2 + 1) kPulseLow0 ;;
   k)
    (mkMachine (mkNexaCtrl t r l (Some (C ++ G ++ O ++ D ++ X))) h a)
  = k (mkMachine (mkNexaCtrl t r l (Some (C ++ G ++ [275; 275] ++ D ++ X)))
                 h (a ++ [54; 55])).
Proof.
  destruct O as [|o1 [|o2 [|]]]; try discriminate. cbn [app].
  rewrite !(app_assoc C G).
  erewrite bind_run
    by (apply store_run; rewrite length_app; unfold kOnFlagOffset; lia).
  rewrite (cons_middle _ (C ++ G)), (app_assoc (C ++ G)).
  erewrite bind_run
    by (apply store_run; rewrite !length_app; cbn [length]; unfold kOnFlagOffset; lia).
  rewrite <- !app_assoc. reflexivity.
Qed.

Lemma frame_device (device_id : Z) :
  SetDeviceBits device_id
    (mkMachine (mkNexaCtrl t r l (Some (C ++ G ++ O ++ D ++ X))) h a)
  = Some (tt, mkMachine
                (mkNexaCtrl t r l
                   (Some (C ++ G ++ O ++ wire (itob device_id kDeviceIdLength) ++ X)))
                h (a ++ seqZ 56 8)).
Proof.
  rewrite !(app_assoc C G), !(app_assoc (C ++ G) O).
  apply SetDeviceBits_run; [rewrite !length_app; lia | exact HD].
Qed.

Lemma frame_dim (dim_level : Z) (X8 rest : list Z) :
  X = X8 ++ rest -> length X8 = 8%nat ->
  for_loop 0 kDimLength (fun bit =>
    SetBit (kDimOffset + bit) (bit_at (itob dim_level kDimLength) bit))
    (mkMachine (mkNexaCtrl t r l (Some (C ++ G ++ O ++ D ++ X))) h a)
  = Some (tt, mkMachine
                (mkNexaCtrl t r l
                   (Some (C ++ G ++ O ++ D ++ wire (itob dim_level kDimLength) ++ rest)))
                h (a ++ seqZ 64 8)).
Proof.
  intros -> HX.
  rewrite !(app_assoc C G), !(app_assoc (C ++ G) O), !(app_assoc ((C ++ G) ++ O) D).
  apply dim_loop_run; [rewrite !length_app; lia | exact HX].
Qed.
End Frame.

Ltac frame_lengths :=
  rewrite ?length_app, ?wire_itob_length, ?wire_pair_length;
  unfold kControllerIdLength, kDeviceIdLength, kDimLength, kLowPulseLength;
  cbn [length]; lia.

Ltac frame_step lem := erewrite bind_run by (apply lem; frame_lengths).

Section Commands.
Variables (t r l : Z) (h : list Event) (a : list Z).
Variables (C G O D X : list Z).
Hypothesis HC : length C = 52%nat.
Hypothesis HG : length G = 2%nat.
Hypothesis HO : length O = 2%nat.
Hypothesis HD : length D = 8%nat.

Lemma DeviceOn_frame (controller_id device_id : Z) :
  DeviceOn controller_id device_id
  (mkMachine (mkNexaCtrl t r l (Some (C ++ G ++ O ++ D ++ X))) h a)
  = transmitted t r l
      (wire (itob controller_id kControllerIdLength) ++ wire_pair false
         ++ wire_pair true ++ wire (itob device_id kDeviceIdLength) ++ X)
    64 h a device_log.
Proof.
  unfold DeviceOn, transmitted, device_log.
  frame_step frame_controller. frame_step frame_group_flag.
  frame_step frame_on_flag. frame_step frame_device.
  rewrite Transmit_run by frame_lengths.
  rewrite <- !app_assoc. reflexivity.
Qed.

Lemma DeviceOff_frame (controller_id device_id : Z) :
  DeviceOff controller_id device_id
  (mkMachine (mkNexaCtrl t r l (Some (C ++ G ++ O ++ D ++ X))) h a)
  = transmitted t r l
      (wire (itob controller_id kControllerIdLength) ++ wire_pair false
         ++ wire_pair false ++ wire (itob device_id kDeviceIdLength) ++ X)
    64 h a device_log.
Proof.
  unfold DeviceOff, transmitted, device_log.
  frame_step frame_controller. frame_step frame_group_flag.
  frame_step frame_on_flag. frame_step frame_device.
  rewrite Transmit_run by frame_lengths.
  rewrite <- !app_assoc. reflexivity.
Qed.

Lemma GroupOn_frame (controller_id : Z) :
  GroupOn controller_id
  (mkMachine (mkNexaCtrl t r l (Some (C ++ G ++ O ++ D ++ X))) h a)
  = transmitted t r l
      (wire (itob controller_id kControllerIdLength) ++ wire_pair true
         ++ wire_pair true ++ wire (itob 0 kDeviceIdLength) ++ X)
    64 h a group_log.
Proof.
  unfold GroupOn, transmitted, group_log.
  frame_step frame_controller. frame_step frame_device.
  frame_step frame_group_flag. frame_step frame_on_flag.
  rewrite Transmit_run by frame_lengths.
  rewrite <- !app_assoc. reflexivity.
Qed.

Lemma GroupOff_frame (controller_id : Z) :
  GroupOff controller_id
  (mkMachine (mkNexaCtrl t r l (Some (C ++ G ++ O ++ D ++ X))) h a)
  = transmitted t r l
      (wire (itob controller_id kControllerIdLength) ++ wire_pair true
         ++ wire_pair false ++ wire (itob 0 kDeviceIdLength) ++ X)
    64 h a group_log.
Proof.
  unfold GroupOff, transmitted, group_log.
  frame_step frame_controller. frame_step frame_device.
  frame_step frame_group_flag. frame_step frame_on_flag.
  rewrite Transmit_run by frame_lengths.
  rewrite <- !app_assoc. reflexivity.
Qed.

Lemma DeviceDim_frame (controller_id device_id dim_level : Z) (X8 rest : list Z) :
  X = X8 ++ rest -> length X8 = 8%nat ->
  DeviceDim controller_id device_id dim_level
  (mkMachine (mkNexaCtrl t r l (Some (C ++ G ++ O ++ D ++ X))) h a)
  = transmitted t r l
      (wire (itob controller_id kControllerIdLength) ++ wire_pair false
         ++ [275; 275] ++ wire (itob device_id kDeviceIdLength)
         ++ wire (itob (wrap_uint (dim_level * (15 ÷ 100))) kDimLength) ++ rest)
    72 h a dim_log.
Proof.
  intros HX HX8. unfold DeviceDim, transmitted, dim_log.
  frame_step frame_controller. frame_step frame_group_flag.
  rewrite frame_dim_marker by frame_lengths.
  frame_step frame_device.
  erewrite bind_run by (eapply frame_dim; [..| exact HX | exact HX8]; frame_lengths).
  rewrite Transmit_run by frame_lengths.
  rewrite <- !app_assoc. reflexivity.
Qed.
End Commands.

Lemma wire_app (front back : list bool) :
  wire (front ++ back) = wire front ++ wire back.
Proof. unfold wire. apply flat_map_app. Qed.

Lemma wire_cons (value : bool) (bits : list bool) :
  wire (value :: bits) = wire_pair value ++ wire bits.
Proof. reflexivity. Qed.

Lemma frame_prefix (C G O D X : list Z) :
  length C = 52%nat -> length G = 2%nat -> length O = 2%nat -> length D = 8%nat ->
  take 64 (C ++ G ++ O ++ D ++ X) = C ++ G ++ O ++ D.
Proof.
  intros HC HG HO HD.
  rewrite (app_assoc C G), (app_assoc (C ++ G) O), (app_assoc ((C ++ G) ++ O) D).
  rewrite take_app_length' by (rewrite !length_app; lia).
  rewrite <- !app_assoc. reflexivity.
Qed.

Lemma frame_split (buf : list Z) :
  length buf = 72%nat ->
  exists C G O D X,
    buf = C ++ G ++ O ++ D ++ X /\ length C = 52%nat /\ length G = 2%nat
    /\ length O = 2%nat /\ length D = 8%nat /\ length X = 8%nat.
Proof.
  intros Hlen.
  exists (take 52 buf), (take 2 (drop 52 buf)), (take 2 (drop 54 buf)),
         (take 8 (drop 56 buf)), (drop 64 buf).
  split.
  - rewrite <- (take_drop 52 buf) at 1. f_equal.
    rewrite <- (take_drop 2 (drop 52 buf)) at 1. f_equal.
    rewrite drop_drop. cbn [Nat.add].
    rewrite <- (take_drop 2 (drop 54 buf)) at 1. f_equal.
    rewrite drop_drop. cbn [Nat.add].
    rewrite <- (take_drop 8 (drop 56 buf)) at 1. f_equal.
    rewrite drop_drop. reflexivity.
  - rewrite !length_take, !length_drop. lia.
Qed.

Lemma frame_fields (C G O D X : list Z) :
  length C = 52%nat -> length G = 2%nat -> length O = 2%nat -> length D = 8%nat ->
  field_slots (C ++ G ++ O ++ D ++ X) kControllerIdOffset kControllerIdLength = C
  /\ field_slots (C ++ G ++ O ++ D ++ X) kGroupFlagOffset 1 = G
  /\ field_slots (C ++ G ++ O ++ D ++ X) kOnFlagOffset 1 = O
  /\ field_slots (C ++ G ++ O ++ D ++ X) kDeviceIdOffset kDeviceIdLength = D
  /\ (length X = 8%nat ->
      field_slots (C ++ G ++ O ++ D ++ X) kDimOffset kDimLength = X).
Proof.
  intros HC HG HO HD. repeat split.
  - apply (field_slots_app [] C); cbn [length];
      unfold kControllerIdOffset, kControllerIdLength; lia.
  - apply field_slots_app; unfold kGroupFlagOffset; lia.
  - rewrite (app_assoc C G).
    apply field_slots_app; rewrite ?length_app; unfold kOnFlagOffset; lia.
  - rewrite (app_assoc C G), (app_assoc (C ++ G) O).
    apply field_slots_app; rewrite ?length_app;
      unfold kDeviceIdOffset, kDeviceIdLength; lia.
  - intros HX.
    rewrite (app_assoc C G), (app_assoc (C ++ G) O), (app_assoc ((C ++ G) ++ O) D).
    rewrite <- (app_nil_r X) at 1.
    apply field_slots_app; rewrite ?length_app; unfold kDimOffset, kDimLength; lia.
Qed.

Lemma bits_value_from (bits : list bool) (acc : Z) :
  fold_left (fun acc (b : bool) => 2 * acc + (if b then 1 else 0)) bits acc
  = acc * 2 ^ Z.of_nat (length bits) + bits_value bits.
Proof.
  unfold bits_value. revert acc.
  induction bits as [|b bits IH]; intros acc; cbn [fold_left length].
  - change (2 ^ Z.of_nat 0) with 1. lia.
  - rewrite IH, (IH (2 * 0 + _)).
    replace (Z.of_nat (S (length bits))) with (Z.of_nat (length bits) + 1) by lia.
    rewrite Z.pow_add_r, Z.pow_1_r by lia. ring.
Qed.

Lemma bits_value_msb_first (w : nat) (x : Z) :
  bits_value (msb_first w x) = x mod 2 ^ Z.of_nat w.
Proof.
  revert x. induction w as [|w IH]; intros x.
  - cbn. rewrite Z.mod_1_r. reflexivity.
  - rewrite msb_first_S. unfold bits_value. cbn [fold_left].
    rewrite bits_value_from, IH, msb_first_length.
    assert (Hp : 0 < 2 ^ Z.of_nat w) by (apply Z.pow_pos_nonneg; lia).
    rewrite Z.mod_mod by lia.
    replace (Z.of_nat (S w)) with (Z.of_nat w + 1) by lia.
    rewrite Z.pow_add_r, Z.pow_1_r by lia.
    rewrite Z.rem_mul_r by lia.
    pose proof (Z.testbit_spec' x (Z.of_nat w) ltac:(lia)) as Hbit.
    destruct (Z.testbit x (Z.of_nat w)); cbn [Z.b2z] in Hbit; rewrite <- Hbit; lia.
Qed.

(** ** Interrupt masking along the waveform *)

Lemma data_wave_quiet (tx : Z) (pulses : list Z) :
  Forall (fun e => masks e = false) (data_wave tx pulses).
Proof.
  induction pulses as [|low pulses IH]; [constructor|].
  unfold data_wave in *. cbn [flat_map app]. repeat constructor. exact IH.
Qed.

Lemma repeat_wave_quiet (tx led : Z) (pulses : list Z) :
  Forall (fun e => masks e = false) (repeat_wave tx led pulses).
Proof.
  unfold repeat_wave, led_on_wave, led_off_wave.
  repeat apply Forall_app_2; try apply data_wave_quiet;
    destruct (led >? 0); repeat constructor.
Qed.

Lemma quiet_stays_masked (body rest : list Event) :
  Forall (fun e => masks e = false) body ->
  all_masked false (body ++ rest) = all_masked false rest
  /\ irq_after false (body ++ rest) = irq_after false rest.
Proof.
  induction 1 as [|e body He _ IH]; [split; reflexivity|].
  destruct e; try discriminate; cbn [app all_masked irq_after negb andb]; exact IH.
Qed.

(** ** Array bounds *)

Lemma device_log_within : accesses_within 0 63 device_log.
Proof.
  unfold accesses_within, device_log.
  repeat (apply Forall_app_2); try (apply Forall_seqZ; intros; lia);
    repeat constructor; lia.
Qed.

Lemma group_log_within : accesses_within 0 63 group_log.
Proof.
  unfold accesses_within, group_log.
  repeat (apply Forall_app_2); try (apply Forall_seqZ; intros; lia);
    repeat constructor; lia.
Qed.

Lemma dim_log_within : accesses_within 0 71 dim_log.
Proof.
  unfold accesses_within, dim_log.
  repeat (apply Forall_app_2); try (apply Forall_seqZ; intros; lia);
    repeat constructor; lia.
Qed.

(** ** An object without its array *)

Lemma SetControllerBits_unallocated (t r l : Z) (h : list Event) (a : list Z)
      (controller_id : Z) :
  SetControllerBits controller_id (mkMachine (mkNexaCtrl t r l None) h a) = None.
Proof.
  unfold SetControllerBits, for_loop.
  change (Z.to_nat (kControllerIdLength - 0)) with 26%nat. cbn [for_from].
  apply bind_fail. unfold SetBit.
  destruct (negb _); apply bind_fail; reflexivity.
Qed.

(** * The claims *)

(** C1.  [SetBit] is the one place where a frame bit becomes wire pulses.
    For every frame bit index of the 36-bit frame and every value, on the
    72-entry array, [SetBit] returns having stored the pair (275, 1225) for
    a logical 0 and (1225, 275) for a logical 1 in the two entries of that
    bit, and decoding the stored pair gives the bit back. *)
Theorem SetBit_wire_encoding (t r l : Z) (buf : list Z) (h : list Event)
        (a : list Z) (bit_index : Z) (value : bool) :
  length buf = 72%nat -> 0 <= bit_index < 36 ->
  exists buf',
    SetBit bit_index value (mkMachine (mkNexaCtrl t r l (Some buf)) h a)
    = Some (tt, mkMachine (mkNexaCtrl t r l (Some buf')) h
                          (a ++ [bit_index * 2; bit_index * 2 + 1]))
    /\ slot_pair buf' bit_index = Some (if value then (1225, 275) else (275, 1225))
    /\ forall first second,
         slot_pair buf' bit_index = Some (first, second) ->
         decode_pair first second = Some value.
Proof.
  intros Hlen Hbit.
  destruct (split_pair buf (Z.to_nat (bit_index * 2))) as (pre & x & y & post & -> & Hpre);
    [lia|].
  exists (pre ++ wire_pair value ++ post).
  assert (Hslot : slot_pair (pre ++ wire_pair value ++ post) bit_index
                  = Some (if value then (1225, 275) else (275, 1225))).
  { destruct value; cbn [wire_pair app]; apply slot_pair_app; lia. }
  split; [apply SetBit_run; lia|]. split; [exact Hslot|].
  intros first second Hread. rewrite Hslot in Hread.
  destruct value; inversion Hread; subst; reflexivity.
Qed.

Lemma SetBit_wire_encoding_witness :
  length (replicate 72 0) = 72%nat /\ 0 <= 27 < 36 /\
  exists buf',
    SetBit 27 true (mkMachine (mkNexaCtrl 3 4 0 (Some (replicate 72 0))) [] [])
    = Some (tt, mkMachine (mkNexaCtrl 3 4 0 (Some buf')) [] ([] ++ [27 * 2; 27 * 2 + 1]))
    /\ slot_pair buf' 27 = Some (1225, 275)
    /\ forall first second,
         slot_pair buf' 27 = Some (first, second) ->
         decode_pair first second = Some true.
Proof.
  split; [reflexivity|]. split; [lia|].
  apply (SetBit_wire_encoding 3 4 0 (replicate 72 0) [] [] 27 true); [reflexivity | lia].
Defined.

(** C2.  On the allocated array, for every controller id and device id:
    [DeviceOn] returns with the group-flag entries holding the pair of a 0
    and the on-flag entries the pair of a 1; [DeviceOff] with the pairs of
    0 and 0; [GroupOn] with the pairs of 1 and 1 and the device entries
    holding the four pairs of device 0; [GroupOff] with the pairs of 1 and
    0 and the device entries of device 0.  The first 64 entries of that
    array, which the command then plays back, are the pairs of the 32 frame
    bits: controller, group flag, on flag, device. *)
Theorem commands_write_flags (t r l : Z) (buf : list Z) (h : list Event)
        (a : list Z) (controller_id device_id : Z) :
  length buf = 72%nat ->
  (exists frame,
     DeviceOn controller_id device_id (mkMachine (mkNexaCtrl t r l (Some buf)) h a)
     = transmitted t r l frame 64 h a device_log
     /\ field_slots frame kGroupFlagOffset 1 = [275; 1225]
     /\ field_slots frame kOnFlagOffset 1 = [1225; 275]
     /\ field_slots frame kDeviceIdOffset kDeviceIdLength
        = wire (itob device_id kDeviceIdLength)
     /\ take 64 frame
        = wire (itob controller_id kControllerIdLength ++ [false; true]
                  ++ itob device_id kDeviceIdLength))
  /\ (exists frame,
        DeviceOff controller_id device_id (mkMachine (mkNexaCtrl t r l (Some buf)) h a)
        = transmitted t r l frame 64 h a device_log
        /\ field_slots frame kGroupFlagOffset 1 = [275; 1225]
        /\ field_slots frame kOnFlagOffset 1 = [275; 1225]
        /\ field_slots frame kDeviceIdOffset kDeviceIdLength
           = wire (itob device_id kDeviceIdLength)
        /\ take 64 frame
           = wire (itob controller_id kControllerIdLength ++ [false; false]
                     ++ itob device_id kDeviceIdLength))
  /\ (exists frame,
        GroupOn controller_id (mkMachine (mkNexaCtrl t r l (Some buf)) h a)
        = transmitted t r l frame 64 h a group_log
        /\ field_slots frame kGroupFlagOffset 1 = [1225; 275]
        /\ field_slots frame kOnFlagOffset 1 = [1225; 275]
        /\ field_slots frame kDeviceIdOffset kDeviceIdLength = wire (msb_first 4 0)
        /\ take 64 frame
           = wire (itob controller_id kControllerIdLength ++ [true; true]
                     ++ msb_first 4 0))
  /\ (exists frame,
        GroupOff controller_id (mkMachine (mkNexaCtrl t r l (Some buf)) h a)
        = transmitted t r l frame 64 h a group_log
        /\ field_slots frame kGroupFlagOffset 1 = [1225; 275]
        /\ field_slots frame kOnFlagOffset 1 = [275; 1225]
        /\ field_slots frame kDeviceIdOffset kDeviceIdLength = wire (msb_first 4 0)
        /\ take 64 frame
           = wire (itob controller_id kControllerIdLength ++ [true; false]
                     ++ msb_first 4 0)).
Proof.
  intros Hlen.
  destruct (frame_split buf Hlen) as (C & G & O & D & X & -> & HC & HG & HO & HD & HX).
  assert (Hfields : forall (group_flag on_flag : bool) (device : list bool),
            length device = 4%nat ->
            let frame := wire (itob controller_id kControllerIdLength)
                           ++ wire_pair group_flag ++ wire_pair on_flag
                           ++ wire device ++ X in
            field_slots frame kGroupFlagOffset 1 = wire_pair group_flag
            /\ field_slots frame kOnFlagOffset 1 = wire_pair on_flag
            /\ field_slots frame kDeviceIdOffset kDeviceIdLength = wire device
            /\ take 64 frame
               = wire (itob controller_id kControllerIdLength
                         ++ [group_flag; on_flag] ++ device)).
  { intros group_flag on_flag device Hdevice frame.
    assert (Hwd : length (wire device) = 8%nat) by (rewrite wire_length; lia).
    destruct (frame_fields (wire (itob controller_id kControllerIdLength))
                (wire_pair group_flag) (wire_pair on_flag) (wire device) X)
      as (_ & Hg & Ho & Hd & _); try frame_lengths.
    repeat split; try assumption.
    unfold frame. rewrite frame_prefix by frame_lengths.
    rewrite wire_app. cbn [app]. rewrite !wire_cons, <- ?app_assoc. reflexivity. }
  split; [|split; [|split]].
  - eexists. split; [apply DeviceOn_frame; assumption|].
    apply (Hfields false true). rewrite itob_length. reflexivity.
  - eexists. split; [apply DeviceOff_frame; assumption|].
    apply (Hfields false false). rewrite itob_length. reflexivity.
  - eexists. split; [apply GroupOn_frame; assumption|].
    apply (Hfields true true (itob 0 kDeviceIdLength)). reflexivity.
  - eexists. split; [apply GroupOff_frame; assumption|].
    apply (Hfields true false (itob 0 kDeviceIdLength)). reflexivity.
Qed.

Lemma commands_write_flags_witness :
  length (replicate 72 0) = 72%nat
  /\ exists frame,
       DeviceOn 1 3 (mkMachine (mkNexaCtrl 3 4 0 (Some (replicate 72 0))) [] [])
       = transmitted 3 4 0 frame 64 [] [] device_log
       /\ field_slots frame kGroupFlagOffset 1 = [275; 1225]
       /\ field_slots frame kOnFlagOffset 1 = [1225; 275]
       /\ field_slots frame kDeviceIdOffset kDeviceIdLength
          = wire (itob 3 kDeviceIdLength)
       /\ take 64 frame
          = wire (itob 1 kControllerIdLength ++ [false; true]
                    ++ itob 3 kDeviceIdLength).
Proof.
  split; [reflexivity|].
  destruct (commands_write_flags 3 4 0 (replicate 72 0) [] [] 1 3) as [Hon _];
    [reflexivity | exact Hon].
Defined.

(** C3.  For a controller id below 2^26 the 26 booleans [itob] produces are
    the standard most-significant-first binary digits of the id, and they
    denote the id; the same holds on 4 digits for a device id and for a dim
    level between 0 and 15. *)
Theorem itob_big_endian (controller_id device_id dim_level : Z) :
  0 <= controller_id <= 2 ^ 26 - 1 ->
  0 <= device_id <= 15 ->
  0 <= dim_level <= 15 ->
  (itob controller_id kControllerIdLength = msb_first 26 controller_id
   /\ bits_value (itob controller_id kControllerIdLength) = controller_id)
  /\ (itob device_id kDeviceIdLength = msb_first 4 device_id
      /\ bits_value (itob device_id kDeviceIdLength) = device_id)
  /\ (itob dim_level kDimLength = msb_first 4 dim_level
      /\ bits_value (itob dim_level kDimLength) = dim_level).
Proof.
  intros Hc Hd Hl.
  assert (Hfield : forall x len, 0 <= len <= 32 -> 0 <= x < 2 ^ len ->
            itob x len = msb_first (Z.to_nat len) x
            /\ bits_value (itob x len) = x).
  { intros x len Hlen Hx. split; [apply itob_msb_first; assumption|].
    rewrite itob_msb_first, bits_value_msb_first by assumption.
    rewrite Z2Nat.id by lia. apply Z.mod_small. exact Hx. }
  split; [|split].
  - apply (Hfield controller_id kControllerIdLength); unfold kControllerIdLength; lia.
  - apply (Hfield device_id kDeviceIdLength); unfold kDeviceIdLength; lia.
  - apply (Hfield dim_level kDimLength); unfold kDimLength; lia.
Qed.

Lemma itob_big_endian_witness :
  (0 <= 11 <= 2 ^ 26 - 1 /\ 0 <= 5 <= 15 /\ 0 <= 9 <= 15)
  /\ (itob 11 kControllerIdLength = msb_first 26 11
      /\ bits_value (itob 11 kControllerIdLength) = 11)
  /\ (itob 5 kDeviceIdLength = msb_first 4 5
      /\ bits_value (itob 5 kDeviceIdLength) = 5)
  /\ (itob 9 kDimLength = msb_first 4 9
      /\ bits_value (itob 9 kDimLength) = 9).
Proof.
  split; [lia|]. apply (itob_big_endian 11 5 9); lia.
Defined.

(** C4.  On the allocated array every command returns, and the waveform it
    adds is that of a pulse sequence of exactly 64 entries for [DeviceOn],
    [DeviceOff], [GroupOn] and [GroupOff], and of exactly 72 entries for
    [DeviceDim]. *)
Theorem commands_pulse_count (t r l : Z) (buf : list Z) (h : list Event)
        (a : list Z) (controller_id device_id dim_level : Z) :
  length buf = 72%nat ->
  (exists m' pulses,
     DeviceOn controller_id device_id (mkMachine (mkNexaCtrl t r l (Some buf)) h a)
     = Some (tt, m')
     /\ hw m' = h ++ transmit_wave t l pulses /\ length pulses = 64%nat)
  /\ (exists m' pulses,
        DeviceOff controller_id device_id (mkMachine (mkNexaCtrl t r l (Some buf)) h a)
        = Some (tt, m')
        /\ hw m' = h ++ transmit_wave t l pulses /\ length pulses = 64%nat)
  /\ (exists m' pulses,
        GroupOn controller_id (mkMachine (mkNexaCtrl t r l (Some buf)) h a)
        = Some (tt, m')
        /\ hw m' = h ++ transmit_wave t l pulses /\ length pulses = 64%nat)
  /\ (exists m' pulses,
        GroupOff controller_id (mkMachine (mkNexaCtrl t r l (Some buf)) h a)
        = Some (tt, m')
        /\ hw m' = h ++ transmit_wave t l pulses /\ length pulses = 64%nat)
  /\ (exists m' pulses,
        DeviceDim controller_id device_id dim_level
                  (mkMachine (mkNexaCtrl t r l (Some buf)) h a)
        = Some (tt, m')
        /\ hw m' = h ++ transmit_wave t l pulses /\ length pulses = 72%nat).
Proof.
  intros Hlen.
  destruct (frame_split buf Hlen) as (C & G & O & D & X & -> & HC & HG & HO & HD & HX).
  split; [|split; [|split; [|split]]].
  - eexists _, _. split; [apply DeviceOn_frame; assumption|].
    split; [reflexivity|]. rewrite length_take. frame_lengths.
  - eexists _, _. split; [apply DeviceOff_frame; assumption|].
    split; [reflexivity|]. rewrite length_take. frame_lengths.
  - eexists _, _. split; [apply GroupOn_frame; assumption|].
    split; [reflexivity|]. rewrite length_take. frame_lengths.
  - eexists _, _. split; [apply GroupOff_frame; assumption|].
    split; [reflexivity|]. rewrite length_take. frame_lengths.
  - eexists _, _.
    split; [apply (DeviceDim_frame t r l h a C G O D X HC HG HO HD _ _ _ X []);
            [rewrite app_nil_r; reflexivity | exact HX]|].
    split; [reflexivity|]. rewrite length_take. frame_lengths.
Qed.

Lemma commands_pulse_count_witness :
  length (replicate 72 0) = 72%nat
  /\ exists m' pulses,
       DeviceDim 1 3 100 (mkMachine (mkNexaCtrl 3 4 0 (Some (replicate 72 0))) [] [])
       = Some (tt, m')
       /\ hw m' = [] ++ transmit_wave 3 0 pulses /\ length pulses = 72%nat.
Proof.
  split; [reflexivity|].
  destruct (commands_pulse_count 3 4 0 (replicate 72 0) [] [] 1 3 100)
    as (_ & _ & _ & _ & Hdim); [reflexivity | exact Hdim].
Defined.

(** C5.  A [Transmit] call whose array covers [pulse_length] entries
    returns, and the platform calls it adds are: interrupts off, two equal
    repeats, interrupts on.  A repeat is latch 1 (high 275, low 9900), latch
    2 (high 275, low 2675), for each of the first [pulse_length] array
    entries in order a high pulse of 275 and a low pulse of the entry's
    value, latch 2 again, and a delay of 10000; the status pin, when
    [led_pin_] is positive, is raised before latch 1 and lowered before the
    final delay, and is not driven otherwise. *)
Theorem Transmit_waveform (t r l : Z) (buf : list Z) (h : list Event)
        (a : list Z) (pulse_length : Z) :
  pulse_length <= Z.of_nat (length buf) ->
  exists m' one_repeat,
    Transmit pulse_length (mkMachine (mkNexaCtrl t r l (Some buf)) h a) = Some (tt, m')
    /\ hw m' = h ++ [noInterrupts] ++ one_repeat ++ one_repeat ++ [interrupts]
    /\ one_repeat
       = led_on_wave l
           ++ [pinSetFast t; delayMicroseconds 275;
               pinResetFast t; delayMicroseconds 9900]
           ++ [pinSetFast t; delayMicroseconds 275;
               pinResetFast t; delayMicroseconds 2675]
           ++ flat_map (fun low => [pinSetFast t; delayMicroseconds 275;
                                    pinResetFast t; delayMicroseconds low])
                       (take (Z.to_nat pulse_length) buf)
           ++ [pinSetFast t; delayMicroseconds 275;
               pinResetFast t; delayMicroseconds 2675]
           ++ led_off_wave l
           ++ [delayMicroseconds 10000]
    /\ (l <= 0 -> led_on_wave l = [] /\ led_off_wave l = []).
Proof.
  intros Hlen. eexists _, _.
  split; [apply Transmit_run; exact Hlen|].
  split; [reflexivity|]. split; [reflexivity|].
  intros Hled. unfold led_on_wave, led_off_wave.
  destruct (Z.gtb_spec l 0); [lia | split; reflexivity].
Qed.

Lemma Transmit_waveform_witness :
  2 <= Z.of_nat (length [275; 1225; 7])
  /\ exists m' one_repeat,
       Transmit 2 (mkMachine (mkNexaCtrl 3 4 0 (Some [275; 1225; 7])) [] [])
       = Some (tt, m')
       /\ hw m' = [] ++ [noInterrupts] ++ one_repeat ++ one_repeat ++ [interrupts]
       /\ one_repeat
          = led_on_wave 0
              ++ [pinSetFast 3; delayMicroseconds 275;
                  pinResetFast 3; delayMicroseconds 9900]
              ++ [pinSetFast 3; delayMicroseconds 275;
                  pinResetFast 3; delayMicroseconds 2675]
              ++ flat_map (fun low => [pinSetFast 3; delayMicroseconds 275;
                                       pinResetFast 3; delayMicroseconds low])
                          (take (Z.to_nat 2) [275; 1225; 7])
              ++ [pinSetFast 3; delayMicroseconds 275;
                  pinResetFast 3; delayMicroseconds 2675]
              ++ led_off_wave 0
              ++ [delayMicroseconds 10000]
       /\ (0 <= 0 -> led_on_wave 0 = [] /\ led_off_wave 0 = []).
Proof.
  split; [cbn; lia|].
  apply (Transmit_waveform 3 4 0 [275; 1225; 7] [] [] 2). cbn. lia.
Defined.

(** C6.  On the allocated array, for every dim level (those of 0 to 100
    among them), [DeviceDim] returns with the on-flag entries holding
    (275, 275), which is the pair of neither logical bit, and with the dim
    entries holding the four pairs of the value 0: the factor [15/100] is
    0, and so is the scaled level. *)
Theorem DeviceDim_marker_and_level (t r l : Z) (buf : list Z) (h : list Event)
        (a : list Z) (controller_id device_id dim_level : Z) :
  length buf = 72%nat ->
  exists frame,
    DeviceDim controller_id device_id dim_level
              (mkMachine (mkNexaCtrl t r l (Some buf)) h a)
    = transmitted t r l frame 72 h a dim_log
    /\ field_slots frame kOnFlagOffset 1 = [275; 275]
    /\ (forall value, wire_pair value <> [275; 275])
    /\ decode_pair 275 275 = None
    /\ 15 ÷ 100 = 0
    /\ wrap_uint (dim_level * (15 ÷ 100)) = 0
    /\ field_slots frame kDimOffset kDimLength = wire (msb_first 4 0)
    /\ field_slots frame kDimOffset kDimLength
       = [275; 1225; 275; 1225; 275; 1225; 275; 1225].
Proof.
  intros Hlen.
  destruct (frame_split buf Hlen) as (C & G & O & D & X & -> & HC & HG & HO & HD & HX).
  assert (Hscaled : wrap_uint (dim_level * (15 ÷ 100)) = 0).
  { change (15 ÷ 100) with 0. rewrite Z.mul_0_r. reflexivity. }
  eexists. split.
  { apply (DeviceDim_frame t r l h a C G O D X HC HG HO HD _ _ _ X []);
      [rewrite app_nil_r; reflexivity | exact HX]. }
  rewrite Hscaled.
  destruct (frame_fields (wire (itob controller_id kControllerIdLength)) (wire_pair false)
              [275; 275] (wire (itob device_id kDeviceIdLength))
              (wire (itob 0 kDimLength) ++ []))
    as (_ & _ & Ho & _ & Hdim); try frame_lengths.
  split; [exact Ho|].
  split; [intros [|]; discriminate|].
  split; [reflexivity|]. split; [reflexivity|]. split; [reflexivity|].
  rewrite Hdim by reflexivity. split; reflexivity.
Qed.

Lemma DeviceDim_marker_and_level_witness :
  length (replicate 72 0) = 72%nat
  /\ exists frame,
       DeviceDim 1 3 100 (mkMachine (mkNexaCtrl 3 4 0 (Some (replicate 72 0))) [] [])
       = transmitted 3 4 0 frame 72 [] [] dim_log
       /\ field_slots frame kOnFlagOffset 1 = [275; 275]
       /\ field_slots frame kDimOffset kDimLength
          = [275; 1225; 275; 1225; 275; 1225; 275; 1225].
Proof.
  split; [reflexivity|].
  destruct (DeviceDim_marker_and_level 3 4 0 (replicate 72 0) [] [] 1 3 100)
    as (frame & Hrun & Hon & _ & _ & _ & _ & _ & Hdim); [reflexivity|].
  exists frame. repeat split; assumption.
Defined.

(** C7, as the claim states it, fails: device id 17 is encoded as 0000, and
    17 reduced modulo 2^4 is 1, encoded as 0001. *)
Lemma itob_does_not_wrap :
  itob 17 kDeviceIdLength = [false; false; false; false]
  /\ itob (17 mod 2 ^ 4) kDeviceIdLength = [false; false; false; true]
  /\ wire (itob 17 kDeviceIdLength) <> wire (itob (17 mod 2 ^ 4) kDeviceIdLength).
Proof.
  split; [reflexivity|]. split; [reflexivity|].
  vm_compute. discriminate.
Qed.

(** C7, amended.  A controller id of 2^26 or more, and a device id of 16 or
    more, is encoded as the all-zero field, the encoding of 0: the test
    [== 1] of [itob] never succeeds.  The field keeps its width: the
    controller loop rewrites the 52 controller entries and the device loop
    the 8 device entries of the array and nothing else.  The scaled dim
    level is 0 for every input, so it is never out of range. *)
Theorem itob_out_of_range (t r l : Z) (h : list Event) (a : list Z)
        (C G O D X : list Z) (controller_id device_id dim_level : Z) :
  length C = 52%nat -> length G = 2%nat -> length O = 2%nat -> length D = 8%nat ->
  2 ^ 26 <= controller_id -> 16 <= device_id ->
  itob controller_id kControllerIdLength = itob 0 kControllerIdLength
  /\ itob device_id kDeviceIdLength = itob 0 kDeviceIdLength
  /\ wrap_uint (dim_level * (15 ÷ 100)) = 0
  /\ SetControllerBits controller_id
       (mkMachine (mkNexaCtrl t r l (Some (C ++ G ++ O ++ D ++ X))) h a)
     = Some (tt, mkMachine
                   (mkNexaCtrl t r l
                      (Some (wire (replicate 26 false) ++ G ++ O ++ D ++ X)))
                   h (a ++ seqZ 0 52))
  /\ SetDeviceBits device_id
       (mkMachine (mkNexaCtrl t r l (Some (C ++ G ++ O ++ D ++ X))) h a)
     = Some (tt, mkMachine
                   (mkNexaCtrl t r l
                      (Some (C ++ G ++ O ++ wire (replicate 4 false) ++ X)))
                   h (a ++ seqZ 56 8)).
Proof.
  intros HC HG HO HD Hc Hd.
  assert (Hcz : itob controller_id kControllerIdLength = replicate 26 false).
  { apply (itob_too_wide controller_id kControllerIdLength);
      unfold kControllerIdLength; lia. }
  assert (Hdz : itob device_id kDeviceIdLength = replicate 4 false).
  { apply (itob_too_wide device_id kDeviceIdLength); unfold kDeviceIdLength; lia. }
  split; [rewrite Hcz; reflexivity|]. split; [rewrite Hdz; reflexivity|].
  split; [change (15 ÷ 100) with 0; rewrite Z.mul_0_r; reflexivity|].
  split.
  - rewrite <- Hcz. apply frame_controller. exact HC.
  - rewrite <- Hdz. apply frame_device; assumption.
Qed.

Lemma itob_out_of_range_witness :
  2 ^ 26 <= 2 ^ 26 + 5 /\ 16 <= 17
  /\ itob (2 ^ 26 + 5) kControllerIdLength = itob 0 kControllerIdLength
  /\ itob 17 kDeviceIdLength = itob 0 kDeviceIdLength.
Proof.
  split; [lia|]. split; [lia|].
  destruct (itob_out_of_range 3 4 0 [] [] (replicate 52 0) [0; 0] [0; 0]
              (replicate 8 0) (replicate 8 0) (2 ^ 26 + 5) 17 100)
    as (Hc & Hd & _); try reflexivity; try lia.
  split; assumption.
Defined.

(** C8.  A [Transmit] call whose array covers [pulse_length] entries
    returns, through its single exit, with a trace that starts with
    [noInterrupts], ends with [interrupts], and has neither in between: both
    repeats run masked.  Whatever the interrupt state before the call, no
    pin is driven and no delay runs while interrupts are delivered, and
    they are delivered again after the call. *)
Theorem Transmit_masks_interrupts (t r l : Z) (buf : list Z) (h : list Event)
        (a : list Z) (pulse_length : Z) :
  pulse_length <= Z.of_nat (length buf) ->
  exists m' body,
    Transmit pulse_length (mkMachine (mkNexaCtrl t r l (Some buf)) h a) = Some (tt, m')
    /\ hw m' = h ++ [noInterrupts] ++ body ++ [interrupts]
    /\ body = repeat_wave t l (take (Z.to_nat pulse_length) buf)
                ++ repeat_wave t l (take (Z.to_nat pulse_length) buf)
    /\ Forall (fun e => masks e = false) body
    /\ forall enabled,
         all_masked enabled ([noInterrupts] ++ body ++ [interrupts]) = true
         /\ irq_after enabled ([noInterrupts] ++ body ++ [interrupts]) = true.
Proof.
  intros Hlen.
  exists (mkMachine (mkNexaCtrl t r l (Some buf))
                    (h ++ transmit_wave t l (take (Z.to_nat pulse_length) buf))
                    (a ++ seqZ 0 pulse_length ++ seqZ 0 pulse_length)),
         (repeat_wave t l (take (Z.to_nat pulse_length) buf)
            ++ repeat_wave t l (take (Z.to_nat pulse_length) buf)).
  split; [apply Transmit_run; exact Hlen|].
  split; [cbn [hw]; unfold transmit_wave; rewrite <- (app_assoc (repeat_wave _ _ _));
          reflexivity|].
  split; [reflexivity|].
  assert (Hquiet : Forall (fun e => masks e = false)
                     (repeat_wave t l (take (Z.to_nat pulse_length) buf)
                        ++ repeat_wave t l (take (Z.to_nat pulse_length) buf))).
  { apply Forall_app_2; apply repeat_wave_quiet. }
  split; [exact Hquiet|].
  intros enabled. cbn [app all_masked irq_after].
  destruct (quiet_stays_masked _ [interrupts] Hquiet) as [-> ->].
  split; reflexivity.
Qed.

Lemma Transmit_masks_interrupts_witness :
  2 <= Z.of_nat (length [275; 1225; 7])
  /\ exists m' body,
       Transmit 2 (mkMachine (mkNexaCtrl 3 4 5 (Some [275; 1225; 7])) [] [])
       = Some (tt, m')
       /\ hw m' = [] ++ [noInterrupts] ++ body ++ [interrupts]
       /\ Forall (fun e => masks e = false) body.
Proof.
  split; [cbn; lia|].
  destruct (Transmit_masks_interrupts 3 4 5 [275; 1225; 7] [] [] 2)
    as (m' & body & Hrun & Hhw & _ & Hquiet & _); [cbn; lia|].
  exists m', body. repeat split; assumption.
Defined.

(** C9.  The two-argument constructor leaves the object with an array of
    64 + 2*4 = 72 entries.  On an object whose array has 72 entries each of
    the five commands returns, no access having left the array: the indices
    it stored to and the indices [Transmit] loaded from all lie in 0..63
    for [DeviceOn], [DeviceOff], [GroupOn] and [GroupOff], and in 0..71 for
    [DeviceDim]; the array still has 72 entries afterwards. *)
Theorem commands_stay_in_bounds (t r l : Z) (buf : list Z) (h : list Event)
        (a : list Z) (controller_id device_id dim_level : Z) :
  length buf = 72%nat ->
  (forall m0 tx_pin rx_pin,
     exists m1 buf0,
       NexaCtrl2 tx_pin rx_pin m0 = Some (tt, m1)
       /\ low_pulse_array (this m1) = Some buf0 /\ length buf0 = 72%nat)
  /\ (exists frame,
        DeviceOn controller_id device_id (mkMachine (mkNexaCtrl t r l (Some buf)) h a)
        = transmitted t r l frame 64 h a device_log
        /\ length frame = 72%nat /\ accesses_within 0 63 device_log)
  /\ (exists frame,
        DeviceOff controller_id device_id (mkMachine (mkNexaCtrl t r l (Some buf)) h a)
        = transmitted t r l frame 64 h a device_log
        /\ length frame = 72%nat /\ accesses_within 0 63 device_log)
  /\ (exists frame,
        GroupOn controller_id (mkMachine (mkNexaCtrl t r l (Some buf)) h a)
        = transmitted t r l frame 64 h a group_log
        /\ length frame = 72%nat /\ accesses_within 0 63 group_log)
  /\ (exists frame,
        GroupOff controller_id (mkMachine (mkNexaCtrl t r l (Some buf)) h a)
        = transmitted t r l frame 64 h a group_log
        /\ length frame = 72%nat /\ accesses_within 0 63 group_log)
  /\ (exists frame,
        DeviceDim controller_id device_id dim_level
                  (mkMachine (mkNexaCtrl t r l (Some buf)) h a)
        = transmitted t r l frame 72 h a dim_log
        /\ length frame = 72%nat /\ accesses_within 0 71 dim_log).
Proof.
  intros Hlen.
  destruct (frame_split buf Hlen) as (C & G & O & D & X & -> & HC & HG & HO & HD & HX).
  split; [|split; [|split; [|split; [|split]]]].
  - intros m0 tx_pin rx_pin. eexists _, _.
    split; [reflexivity|]. split; reflexivity.
  - eexists. split; [apply DeviceOn_frame; assumption|].
    split; [frame_lengths | apply device_log_within].
  - eexists. split; [apply DeviceOff_frame; assumption|].
    split; [frame_lengths | apply device_log_within].
  - eexists. split; [apply GroupOn_frame; assumption|].
    split; [frame_lengths | apply group_log_within].
  - eexists. split; [apply GroupOff_frame; assumption|].
    split; [frame_lengths | apply group_log_within].
  - eexists.
    split; [apply (DeviceDim_frame t r l h a C G O D X HC HG HO HD _ _ _ X []);
            [rewrite app_nil_r; reflexivity | exact HX]|].
    split; [frame_lengths | apply dim_log_within].
Qed.

Lemma commands_stay_in_bounds_witness :
  length (replicate 72 0) = 72%nat
  /\ exists frame,
       DeviceDim 1 3 100 (mkMachine (mkNexaCtrl 3 4 0 (Some (replicate 72 0))) [] [])
       = transmitted 3 4 0 frame 72 [] [] dim_log
       /\ length frame = 72%nat /\ accesses_within 0 71 dim_log.
Proof.
  split; [reflexivity|].
  destruct (commands_stay_in_bounds 3 4 0 (replicate 72 0) [] [] 1 3 100)
    as (_ & _ & _ & _ & _ & Hdim); [reflexivity | exact Hdim].
Defined.

(** C10.  Run on storage whose members hold [t0], [r0], [l0] and the
    pointer [p], the three-argument constructor stores [led_pin] in
    [led_pin_] and sets its pin mode; [tx_pin_], [rx_pin_] and
    [low_pulse_array] still hold [t0], [r0] and [p]: the nested constructor
    call worked on a temporary, whose only lasting effect is the pin modes
    of [tx_pin] and [rx_pin].  The two-argument constructor, by contrast,
    sets both pins and the array.  When [p] addresses no block of the
    object, every command on the object so constructed is undefined at its
    first array access. *)
Theorem three_argument_constructor (tmp : NexaCtrl) (t0 r0 l0 : Z)
        (p : option (list Z)) (h : list Event) (a : list Z)
        (tx_pin rx_pin led_pin : Z) :
  NexaCtrl3 tmp tx_pin rx_pin led_pin (mkMachine (mkNexaCtrl t0 r0 l0 p) h a)
  = Some (tt, mkMachine (mkNexaCtrl t0 r0 led_pin p)
                        (h ++ [pinMode led_pin OUTPUT;
                               pinMode tx_pin OUTPUT; pinMode rx_pin INPUT])
                        a)
  /\ NexaCtrl2 tx_pin rx_pin (mkMachine (mkNexaCtrl t0 r0 l0 p) h a)
     = Some (tt, mkMachine (mkNexaCtrl tx_pin rx_pin l0 (Some (replicate 72 0)))
                           (h ++ [pinMode tx_pin OUTPUT; pinMode rx_pin INPUT])
                           a)
  /\ forall (h' : list Event) (a' : list Z) (controller_id device_id dim_level : Z),
       DeviceOn controller_id device_id
                (mkMachine (mkNexaCtrl t0 r0 led_pin None) h' a') = None
       /\ DeviceOff controller_id device_id
                    (mkMachine (mkNexaCtrl t0 r0 led_pin None) h' a') = None
       /\ DeviceDim controller_id device_id dim_level
                    (mkMachine (mkNexaCtrl t0 r0 led_pin None) h' a') = None
       /\ GroupOn controller_id (mkMachine (mkNexaCtrl t0 r0 led_pin None) h' a') = None
       /\ GroupOff controller_id (mkMachine (mkNexaCtrl t0 r0 led_pin None) h' a') = None.
Proof.
  split; [|split].
  - unfold NexaCtrl3, NexaCtrl2, on_temporary, bind, assign, self, emit.
    cbn. rewrite <- !app_assoc. reflexivity.
  - unfold NexaCtrl2, bind, assign, self, emit.
    cbn. rewrite <- !app_assoc. reflexivity.
  - intros h' a' controller_id device_id dim_level.
    repeat split; apply bind_fail; apply SetControllerBits_unallocated.
Qed.

(** * Further properties *)

(** ** [itob] on any width *)

(** X1.  For a width of at most 32 and a non-negative integer, [itob]
    fills exactly [length] booleans (none when [length] is not positive).
    When the integer is below 2^length they are its binary digits, most
    significant first, and denote it; otherwise they are all false and
    denote 0. *)
Theorem itob_any_width (integer length : Z) :
  0 <= integer -> length <= 32 ->
  List.length (itob integer length) = Z.to_nat length
  /\ (length <= 0 -> itob integer length = [])
  /\ (0 <= length -> integer < 2 ^ length ->
      itob integer length = msb_first (Z.to_nat length) integer
      /\ bits_value (itob integer length) = integer)
  /\ (0 <= length -> 2 ^ length <= integer ->
      itob integer length = replicate (Z.to_nat length) false
      /\ bits_value (itob integer length) = 0).
Proof.
  intros Hint Hlen. split; [apply itob_length|]. split; [|split].
  - intros Hneg. unfold itob. replace (Z.to_nat length) with 0%nat by lia. reflexivity.
  - intros Hpos Hfit. split; [apply itob_msb_first; lia|].
    rewrite itob_msb_first, bits_value_msb_first by lia.
    rewrite Z2Nat.id by lia. apply Z.mod_small. lia.
  - intros Hpos Hwide. split; [apply itob_too_wide; lia|].
    rewrite itob_too_wide by lia.
    generalize (Z.to_nat length). intros n. induction n as [|n IH]; [reflexivity|].
    cbn [replicate]. unfold bits_value in *. cbn [fold_left]. exact IH.
Qed.

Lemma itob_any_width_witness :
  (0 <= 300 /\ 8 <= 32)
  /\ List.length (itob 300 8) = Z.to_nat 8
  /\ (0 <= 8 -> 2 ^ 8 <= 300 ->
      itob 300 8 = replicate (Z.to_nat 8) false /\ bits_value (itob 300 8) = 0).
Proof.
  split; [lia|].
  destruct (itob_any_width 300 8) as (Hl & _ & _ & Hw); [lia | lia |].
  split; assumption.
Defined.

(** ** [SetBit] as an array update *)

Lemma in_bounds_true (idx : Z) (buf : list Z) :
  0 <= idx < Z.of_nat (List.length buf) -> in_bounds idx buf = true.
Proof.
  intros H. unfold in_bounds. apply andb_true_intro.
  split; [apply Z.leb_le | apply Z.ltb_lt]; lia.
Qed.

Lemma in_bounds_false (idx : Z) (buf : list Z) :
  Z.of_nat (List.length buf) <= idx -> in_bounds idx buf = false.
Proof.
  intros H. unfold in_bounds. apply andb_false_intro2. apply Z.ltb_ge. lia.
Qed.

Lemma store_insert (t r l : Z) (buf : list Z) (h : list Event) (a : list Z)
      (idx v : Z) :
  0 <= idx < Z.of_nat (List.length buf) ->
  store idx v (mkMachine (mkNexaCtrl t r l (Some buf)) h a)
  = Some (tt, mkMachine (mkNexaCtrl t r l (Some (<[Z.to_nat idx := v]> buf)))
                        h (a ++ [idx])).
Proof.
  intros H. unfold store. cbn [this low_pulse_array tx_pin_ rx_pin_ led_pin_ hw touched].
  rewrite in_bounds_true by exact H. reflexivity.
Qed.

Lemma SetBit_insert (t r l : Z) (buf : list Z) (h : list Event) (a : list Z)
      (bit_index : Z) (value : bool) :
  0 <= bit_index -> bit_index * 2 + 1 < Z.of_nat (List.length buf) ->
  Z.of_nat (List.length buf) <= 2 ^ 32 ->
  SetBit bit_index value (mkMachine (mkNexaCtrl t r l (Some buf)) h a)
  = Some (tt, mkMachine
                (mkNexaCtrl t r l
                   (Some (<[Z.to_nat (bit_index * 2 + 1) := if value then 275 else 1225]>
                            (<[Z.to_nat (bit_index * 2) := if value then 1225 else 275]>
                               buf))))
                h (a ++ [bit_index * 2; bit_index * 2 + 1])).
Proof.
  intros Hi Hlen Hcap. unfold SetBit.
  rewrite (wrap_uint_small (bit_index * 2)) by lia.
  rewrite (wrap_uint_small (bit_index * 2 + 1)) by lia.
  destruct value; cbn [negb].
  - erewrite bind_run by (apply store_insert; lia).
    rewrite store_insert by (rewrite length_insert; lia).
    rewrite <- app_assoc. reflexivity.
  - erewrite bind_run by (apply store_insert; lia).
    rewrite store_insert by (rewrite length_insert; lia).
    rewrite <- app_assoc. reflexivity.
Qed.

(** X2.  On an array that holds both entries of bit [bit_index], [SetBit]
    returns with an array of the same length in which every entry other
    than entries [2*bit_index] and [2*bit_index + 1] is what it was. *)
Theorem SetBit_leaves_other_entries (t r l : Z) (buf : list Z) (h : list Event)
        (a : list Z) (bit_index : Z) (value : bool) :
  0 <= bit_index -> bit_index * 2 + 1 < Z.of_nat (List.length buf) ->
  Z.of_nat (List.length buf) <= 2 ^ 32 ->
  exists buf',
    SetBit bit_index value (mkMachine (mkNexaCtrl t r l (Some buf)) h a)
    = Some (tt, mkMachine (mkNexaCtrl t r l (Some buf')) h
                          (a ++ [bit_index * 2; bit_index * 2 + 1]))
    /\ List.length buf' = List.length buf
    /\ forall j : nat,
         j <> Z.to_nat (bit_index * 2) -> j <> Z.to_nat (bit_index * 2 + 1) ->
         buf' !! j = buf !! j.
Proof.
  intros Hi Hlen Hcap. eexists.
  split; [apply SetBit_insert; assumption|].
  split; [rewrite !length_insert; reflexivity|].
  intros j Hj0 Hj1.
  rewrite list_lookup_insert_ne by congruence.
  apply list_lookup_insert_ne. congruence.
Qed.

Lemma SetBit_leaves_other_entries_witness :
  (0 <= 1 /\ 1 * 2 + 1 < Z.of_nat (List.length [7; 8; 9; 10; 11])
   /\ Z.of_nat (List.length [7; 8; 9; 10; 11]) <= 2 ^ 32)
  /\ exists buf',
       SetBit 1 true (mkMachine (mkNexaCtrl 3 4 0 (Some [7; 8; 9; 10; 11])) [] [])
       = Some (tt, mkMachine (mkNexaCtrl 3 4 0 (Some buf')) []
                             ([] ++ [1 * 2; 1 * 2 + 1]))
       /\ List.length buf' = List.length [7; 8; 9; 10; 11]
       /\ forall j : nat,
            j <> Z.to_nat (1 * 2) -> j <> Z.to_nat (1 * 2 + 1) ->
            buf' !! j = [7; 8; 9; 10; 11] !! j.
Proof.
  split; [cbn; lia|].
  apply (SetBit_leaves_other_entries 3 4 0 [7; 8; 9; 10; 11] [] [] 1 true); cbn; lia.
Defined.

(** X3.  Two [SetBit] calls on different bits give the same array in either
    order, and of two calls on the same bit the later one decides the
    entries. *)
Theorem SetBit_order (t r l : Z) (buf : list Z) (h : list Event) (a : list Z)
        (i j : Z) (v w : bool) :
  0 <= i -> i * 2 + 1 < Z.of_nat (List.length buf) ->
  0 <= j -> j * 2 + 1 < Z.of_nat (List.length buf) ->
  Z.of_nat (List.length buf) <= 2 ^ 32 ->
  (i <> j ->
   exists buf',
     (SetBit i v ;; SetBit j w) (mkMachine (mkNexaCtrl t r l (Some buf)) h a)
     = Some (tt, mkMachine (mkNexaCtrl t r l (Some buf')) h
                           (a ++ [i * 2; i * 2 + 1; j * 2; j * 2 + 1]))
     /\ (SetBit j w ;; SetBit i v) (mkMachine (mkNexaCtrl t r l (Some buf)) h a)
        = Some (tt, mkMachine (mkNexaCtrl t r l (Some buf')) h
                              (a ++ [j * 2; j * 2 + 1; i * 2; i * 2 + 1])))
  /\ exists buf',
       (SetBit i v ;; SetBit i w) (mkMachine (mkNexaCtrl t r l (Some buf)) h a)
       = Some (tt, mkMachine (mkNexaCtrl t r l (Some buf')) h
                             (a ++ [i * 2; i * 2 + 1; i * 2; i * 2 + 1]))
       /\ SetBit i w (mkMachine (mkNexaCtrl t r l (Some buf)) h a)
          = Some (tt, mkMachine (mkNexaCtrl t r l (Some buf')) h
                                (a ++ [i * 2; i * 2 + 1])).
Proof.
  intros Hi Hil Hj Hjl Hcap. split.
  - intros Hne. eexists. split.
    + erewrite bind_run by (apply SetBit_insert; assumption).
      rewrite SetBit_insert by (rewrite ?length_insert; assumption).
      rewrite <- app_assoc. reflexivity.
    + erewrite bind_run by (apply SetBit_insert; assumption).
      rewrite SetBit_insert by (rewrite ?length_insert; assumption).
      rewrite <- app_assoc. cbn [app]. do 3 f_equal. f_equal.
      rewrite (list_insert_insert_ne _ (Z.to_nat (j * 2)) (Z.to_nat (i * 2 + 1))) by lia.
      rewrite (list_insert_insert_ne _ (Z.to_nat (j * 2)) (Z.to_nat (i * 2))) by lia.
      rewrite (list_insert_insert_ne _ (Z.to_nat (j * 2 + 1)) (Z.to_nat (i * 2 + 1))) by lia.
      rewrite (list_insert_insert_ne _ (Z.to_nat (j * 2 + 1)) (Z.to_nat (i * 2))) by lia.
      reflexivity.
  - exists (<[Z.to_nat (i * 2 + 1) := if w then 275 else 1225]>
              (<[Z.to_nat (i * 2) := if w then 1225 else 275]> buf)).
    split; [|apply SetBit_insert; assumption].
    erewrite bind_run by (apply SetBit_insert; assumption).
    rewrite SetBit_insert by (rewrite ?length_insert; assumption).
    rewrite <- app_assoc. cbn [app].
    rewrite (list_insert_insert_ne _ (Z.to_nat (i * 2)) (Z.to_nat (i * 2 + 1))) by lia.
    rewrite (list_insert_insert_eq _ (Z.to_nat (i * 2 + 1))).
    rewrite (list_insert_insert_eq _ (Z.to_nat (i * 2))).
    reflexivity.
Qed.

Lemma SetBit_order_witness :
  (0 <= 0 /\ 0 * 2 + 1 < Z.of_nat (List.length [7; 8; 9; 10])
   /\ 0 <= 1 /\ 1 * 2 + 1 < Z.of_nat (List.length [7; 8; 9; 10])
   /\ Z.of_nat (List.length [7; 8; 9; 10]) <= 2 ^ 32 /\ 0 <> 1)
  /\ exists buf',
       (SetBit 0 true ;; SetBit 1 false)
         (mkMachine (mkNexaCtrl 3 4 0 (Some [7; 8; 9; 10])) [] [])
       = Some (tt, mkMachine (mkNexaCtrl 3 4 0 (Some buf')) []
                             ([] ++ [0 * 2; 0 * 2 + 1; 1 * 2; 1 * 2 + 1]))
       /\ (SetBit 1 false ;; SetBit 0 true)
            (mkMachine (mkNexaCtrl 3 4 0 (Some [7; 8; 9; 10])) [] [])
          = Some (tt, mkMachine (mkNexaCtrl 3 4 0 (Some buf')) []
                                ([] ++ [1 * 2; 1 * 2 + 1; 0 * 2; 0 * 2 + 1])).
Proof.
  split; [cbn; lia|].
  destruct (SetBit_order 3 4 0 [7; 8; 9; 10] [] [] 0 1 true false) as [Hswap _];
    try (cbn; lia).
  apply Hswap. lia.
Defined.

(** X4.  [SetBit] checks no bound.  On the 72-entry array a bit index from
    36 up to 2^31 - 1 makes its first store fall outside the array, and the
    bit index 2^31 + k, whose double wraps around on [unsigned int], is
    stored in the entries of bit k. *)
Theorem SetBit_beyond_frame (t r l : Z) (buf : list Z) (h : list Event)
        (a : list Z) (bit_index k : Z) (value : bool) :
  List.length buf = 72%nat ->
  36 <= bit_index < 2 ^ 31 -> 0 <= k < 36 ->
  SetBit bit_index value (mkMachine (mkNexaCtrl t r l (Some buf)) h a) = None
  /\ SetBit (2 ^ 31 + k) value (mkMachine (mkNexaCtrl t r l (Some buf)) h a)
     = SetBit k value (mkMachine (mkNexaCtrl t r l (Some buf)) h a)
  /\ exists buf',
       SetBit (2 ^ 31 + k) value (mkMachine (mkNexaCtrl t r l (Some buf)) h a)
       = Some (tt, mkMachine (mkNexaCtrl t r l (Some buf')) h (a ++ [k * 2; k * 2 + 1])).
Proof.
  intros Hlen Hbit Hk.
  assert (Hwrap : wrap_uint ((2 ^ 31 + k) * 2) = wrap_uint (k * 2)).
  { unfold wrap_uint, uint_modulus.
    replace ((2 ^ 31 + k) * 2) with (k * 2 + 1 * 2 ^ 32) by lia.
    apply Z.mod_add. lia. }
  split; [|split].
  - unfold SetBit. rewrite (wrap_uint_small (bit_index * 2)) by lia.
    destruct (negb value); apply bind_fail; unfold store;
      cbn [this low_pulse_array]; rewrite in_bounds_false by lia; reflexivity.
  - unfold SetBit. rewrite Hwrap. reflexivity.
  - eexists. unfold SetBit at 1. rewrite Hwrap. fold (SetBit k value).
    apply SetBit_insert; lia.
Qed.

Lemma SetBit_beyond_frame_witness :
  (List.length (replicate 72 0) = 72%nat /\ 36 <= 36 < 2 ^ 31 /\ 0 <= 5 < 36)
  /\ SetBit 36 true (mkMachine (mkNexaCtrl 3 4 0 (Some (replicate 72 0))) [] []) = None
  /\ SetBit (2 ^ 31 + 5) true (mkMachine (mkNexaCtrl 3 4 0 (Some (replicate 72 0))) [] [])
     = SetBit 5 true (mkMachine (mkNexaCtrl 3 4 0 (Some (replicate 72 0))) [] []).
Proof.
  split; [cbn; lia|].
  destruct (SetBit_beyond_frame 3 4 0 (replicate 72 0) [] [] 36 5 true)
    as (Hout & Hwrap & _); try (cbn; lia).
  split; assumption.
Defined.

(** ** What [Transmit] does to the object and to the pins *)

(** X5.  A [Transmit] call whose array covers [pulse_length] entries
    returns with the object as it was, array included: it stores nothing,
    and it loads entries 0 to [pulse_length - 1] in order, once in each of
    the two repeats. *)
Theorem Transmit_only_loads (t r l : Z) (buf : list Z) (h : list Event)
        (a : list Z) (pulse_length : Z) :
  pulse_length <= Z.of_nat (List.length buf) ->
  exists m',
    Transmit pulse_length (mkMachine (mkNexaCtrl t r l (Some buf)) h a) = Some (tt, m')
    /\ this m' = mkNexaCtrl t r l (Some buf)
    /\ touched m' = a ++ seqZ 0 pulse_length ++ seqZ 0 pulse_length.
Proof.
  intros Hlen. eexists. split; [apply Transmit_run; exact Hlen|].
  split; reflexivity.
Qed.

Lemma Transmit_only_loads_witness :
  2 <= Z.of_nat (List.length [275; 1225; 7])
  /\ exists m',
       Transmit 2 (mkMachine (mkNexaCtrl 3 4 5 (Some [275; 1225; 7])) [] []) = Some (tt, m')
       /\ this m' = mkNexaCtrl 3 4 5 (Some [275; 1225; 7])
       /\ touched m' = [] ++ seqZ 0 2 ++ seqZ 0 2.
Proof.
  split; [cbn; lia|].
  apply (Transmit_only_loads 3 4 5 [275; 1225; 7] [] [] 2). cbn. lia.
Defined.

Lemma repeat_wave_pins (tx led : Z) (pulses : list Z) :
  Forall (fun e => is_pinMode e = false
                   /\ forall pin, pin_of e = Some pin ->
                                  pin = tx \/ (pin = led /\ 0 < led))
         (repeat_wave tx led pulses).
Proof.
  assert (Htx : forall e, e = pinSetFast tx \/ e = pinResetFast tx ->
                  is_pinMode e = false
                  /\ forall pin, pin_of e = Some pin ->
                                 pin = tx \/ (pin = led /\ 0 < led)).
  { intros e [-> | ->]; (split; [reflexivity|]); intros pin [= <-]; left; reflexivity. }
  assert (Hdelay : forall us,
            is_pinMode (delayMicroseconds us) = false
            /\ forall pin, pin_of (delayMicroseconds us) = Some pin ->
                           pin = tx \/ (pin = led /\ 0 < led)).
  { intros us. split; [reflexivity | discriminate]. }
  assert (Hdata : Forall (fun e => is_pinMode e = false
                     /\ forall pin, pin_of e = Some pin ->
                                    pin = tx \/ (pin = led /\ 0 < led))
                    (data_wave tx pulses)).
  { induction pulses as [|low pulses IH]; [constructor|].
    unfold data_wave in *. cbn [flat_map app].
    repeat (constructor; [first [apply Hdelay | apply Htx; auto]|]). exact IH. }
  unfold repeat_wave, led_on_wave, led_off_wave, latch1_wave, latch2_wave.
  repeat apply Forall_app_2; try exact Hdata;
    try (repeat (constructor; [first [apply Hdelay | apply Htx; auto]|]); constructor).
  - destruct (Z.gtb_spec led 0); constructor; [|constructor].
    split; [reflexivity|]. intros pin [= <-]. right. split; [reflexivity | lia].
  - destruct (Z.gtb_spec led 0); constructor; [|constructor].
    split; [reflexivity|]. intros pin [= <-]. right. split; [reflexivity | lia].
Qed.

(** X6.  The platform calls of a [Transmit] call configure no pin, and the
    only pins they drive are [tx_pin_] and, when it is positive,
    [led_pin_]: [rx_pin_] is not used. *)
Theorem Transmit_drives_tx_and_led (t r l : Z) (buf : list Z) (h : list Event)
        (a : list Z) (pulse_length : Z) :
  pulse_length <= Z.of_nat (List.length buf) ->
  exists m' wave,
    Transmit pulse_length (mkMachine (mkNexaCtrl t r l (Some buf)) h a) = Some (tt, m')
    /\ hw m' = h ++ wave
    /\ Forall (fun e => is_pinMode e = false
                        /\ forall pin, pin_of e = Some pin ->
                                       pin = t \/ (pin = l /\ 0 < l))
              wave.
Proof.
  intros Hlen. eexists _, _. split; [apply Transmit_run; exact Hlen|].
  split; [reflexivity|]. unfold transmit_wave.
  apply Forall_app_2; [constructor; [split; [reflexivity | discriminate] | constructor]|].
  apply Forall_app_2; [apply repeat_wave_pins|].
  apply Forall_app_2; [apply repeat_wave_pins|].
  constructor; [split; [reflexivity | discriminate] | constructor].
Qed.

Lemma Transmit_drives_tx_and_led_witness :
  2 <= Z.of_nat (List.length [275; 1225; 7])
  /\ exists m' wave,
       Transmit 2 (mkMachine (mkNexaCtrl 3 4 5 (Some [275; 1225; 7])) [] []) = Some (tt, m')
       /\ hw m' = [] ++ wave
       /\ Forall (fun e => is_pinMode e = false
                           /\ forall pin, pin_of e = Some pin ->
                                          pin = 3 \/ (pin = 5 /\ 0 < 5))
                 wave.
Proof.
  split; [cbn; lia|].
  apply (Transmit_drives_tx_and_led 3 4 5 [275; 1225; 7] [] [] 2). cbn. lia.
Defined.

Lemma pin_level_app (pin : Z) (level : PinLevel) (front back : list Event) :
  pin_level pin level (front ++ back) = pin_level pin (pin_level pin level front) back.
Proof.
  revert level. induction front as [|e front IH]; intros level; [reflexivity|].
  destruct e; cbn [app pin_level]; apply IH.
Qed.

Lemma repeat_wave_ends_low (tx led : Z) (pulses : list Z) (pin : Z) (level : PinLevel) :
  pin = tx \/ (pin = led /\ 0 < led) ->
  pin_level pin level (repeat_wave tx led pulses) = LOW.
Proof.
  intros Hpin. unfold repeat_wave.
  rewrite !pin_level_app.
  set (before := pin_level pin _ (data_wave tx pulses)). clearbody before.
  unfold latch2_wave, led_off_wave. cbn [pin_level].
  destruct Hpin as [-> | [-> Hled]].
  - rewrite Z.eqb_refl. destruct (led >? 0); cbn [pin_level]; [|reflexivity].
    destruct (led =? tx); reflexivity.
  - destruct (Z.gtb_spec led 0); [|lia]. cbn [pin_level].
    rewrite Z.eqb_refl. reflexivity.
Qed.

(** X7.  When a [Transmit] call returns, the transmit pin is low, whatever
    its level before the call, and so is the status pin when [led_pin_] is
    positive. *)
Theorem Transmit_leaves_pins_low (t r l : Z) (buf : list Z) (h : list Event)
        (a : list Z) (pulse_length : Z) (level : PinLevel) :
  pulse_length <= Z.of_nat (List.length buf) ->
  exists m' wave,
    Transmit pulse_length (mkMachine (mkNexaCtrl t r l (Some buf)) h a) = Some (tt, m')
    /\ hw m' = h ++ wave
    /\ pin_level t level wave = LOW
    /\ (0 < l -> pin_level l level wave = LOW).
Proof.
  intros Hlen. eexists _, _. split; [apply Transmit_run; exact Hlen|].
  split; [reflexivity|].
  assert (Hlow : forall pin, pin = t \/ (pin = l /\ 0 < l) ->
            pin_level pin level
              (transmit_wave t l (take (Z.to_nat pulse_length) buf)) = LOW).
  { intros pin Hpin. unfold transmit_wave. rewrite !pin_level_app.
    rewrite (repeat_wave_ends_low t l _ pin _ Hpin). reflexivity. }
  split; [apply Hlow; left; reflexivity|].
  intros Hled. apply Hlow. right. split; [reflexivity | exact Hled].
Qed.

Lemma Transmit_leaves_pins_low_witness :
  2 <= Z.of_nat (List.length [275; 1225; 7])
  /\ exists m' wave,
       Transmit 2 (mkMachine (mkNexaCtrl 3 4 5 (Some [275; 1225; 7])) [] []) = Some (tt, m')
       /\ hw m' = [] ++ wave
       /\ pin_level 3 HIGH wave = LOW
       /\ (0 < 5 -> pin_level 5 HIGH wave = LOW).
Proof.
  split; [cbn; lia|].
  apply (Transmit_leaves_pins_low 3 4 5 [275; 1225; 7] [] [] 2 HIGH). cbn. lia.
Defined.

(** ** What a call plays back *)

Lemma itob_zero_nibble : itob 0 4 = [false; false; false; false].
Proof. vm_compute. reflexivity. Qed.

Lemma played_prefix (controller_id : Z) (group_flag on_flag : bool)
      (device : list bool) (X : list Z) :
  List.length device = 4%nat ->
  take 64 (wire (itob controller_id kControllerIdLength) ++ wire_pair group_flag
             ++ wire_pair on_flag ++ wire device ++ X)
  = wire (itob controller_id 26 ++ [group_flag; on_flag] ++ device).
Proof.
  intros Hdevice.
  rewrite frame_prefix
    by (rewrite ?wire_pair_length, ?wire_itob_length, ?wire_length;
        unfold kControllerIdLength; lia).
  rewrite wire_app. cbn [app]. rewrite !wire_cons, <- ?app_assoc. reflexivity.
Qed.

Lemma call_run (t r l : Z) (buf : list Z) (h : list Event) (a : list Z)
      (cmd : Command) :
  List.length buf = 72%nat ->
  exists frame,
    call cmd (mkMachine (mkNexaCtrl t r l (Some buf)) h a)
    = Some (tt, mkMachine (mkNexaCtrl t r l (Some frame))
                          (h ++ transmit_wave t l (played cmd))
                          (a ++ accessed cmd))
    /\ List.length frame = 72%nat.
Proof.
  intros Hlen.
  destruct (frame_split buf Hlen) as (C & G & O & D & X & -> & HC & HG & HO & HD & HX).
  destruct cmd as [c d | c d | c d lvl | c | c]; cbn [call played accessed].
  - eexists. split.
    + rewrite DeviceOn_frame by assumption. unfold transmitted.
      rewrite played_prefix by (rewrite itob_length; reflexivity). reflexivity.
    + rewrite ?length_app, ?wire_pair_length, ?wire_itob_length, ?wire_length.
      unfold kControllerIdLength, kDeviceIdLength, kDimLength. cbn [List.length]. lia.
  - eexists. split.
    + rewrite DeviceOff_frame by assumption. unfold transmitted.
      rewrite played_prefix by (rewrite itob_length; reflexivity). reflexivity.
    + rewrite ?length_app, ?wire_pair_length, ?wire_itob_length, ?wire_length.
      unfold kControllerIdLength, kDeviceIdLength, kDimLength. cbn [List.length]. lia.
  - eexists. split.
    + rewrite (DeviceDim_frame t r l h a C G O D X HC HG HO HD c d lvl X [])
        by (rewrite ?app_nil_r; auto).
      unfold transmitted. do 3 f_equal. f_equal.
      rewrite take_ge by frame_lengths.
      change (15 ÷ 100) with 0. rewrite Z.mul_0_r.
      change (wrap_uint 0) with 0.
      change (itob 0 kDimLength) with (itob 0 4). rewrite itob_zero_nibble.
      rewrite !wire_app. cbn [app]. rewrite !wire_cons, <- ?app_assoc.
      change (wire []) with (@nil Z). rewrite ?app_nil_r. cbn [app].
      reflexivity.
    + rewrite ?length_app, ?wire_pair_length, ?wire_itob_length, ?wire_length.
      unfold kControllerIdLength, kDeviceIdLength, kDimLength. cbn [List.length]. lia.
  - eexists. split.
    + rewrite GroupOn_frame by assumption. unfold transmitted.
      change (itob 0 kDeviceIdLength) with (itob 0 4). rewrite itob_zero_nibble.
      rewrite played_prefix by reflexivity. reflexivity.
    + rewrite ?length_app, ?wire_pair_length, ?wire_itob_length, ?wire_length.
      unfold kControllerIdLength, kDeviceIdLength, kDimLength. cbn [List.length]. lia.
  - eexists. split.
    + rewrite GroupOff_frame by assumption. unfold transmitted.
      change (itob 0 kDeviceIdLength) with (itob 0 4). rewrite itob_zero_nibble.
      rewrite played_prefix by reflexivity. reflexivity.
    + rewrite ?length_app, ?wire_pair_length, ?wire_itob_length, ?wire_length.
      unfold kControllerIdLength, kDeviceIdLength, kDimLength. cbn [List.length]. lia.
Qed.

(** ** How long a transmission takes *)

Lemma busy_time_app (front back : list Event) :
  busy_time (front ++ back) = busy_time front + busy_time back.
Proof.
  induction front as [|e front IH]; [reflexivity|].
  destruct e; cbn [app busy_time]; lia.
Qed.

Lemma busy_time_data (tx : Z) (pulses : list Z) :
  busy_time (data_wave tx pulses) = 275 * Z.of_nat (List.length pulses) + total pulses.
Proof.
  induction pulses as [|low pulses IH]; [reflexivity|].
  unfold data_wave in *. cbn [flat_map app busy_time List.length total fold_right].
  fold (total pulses). lia.
Qed.

Lemma busy_time_repeat (tx led : Z) (pulses : list Z) :
  busy_time (repeat_wave tx led pulses)
  = 26075 + 275 * Z.of_nat (List.length pulses) + total pulses.
Proof.
  unfold repeat_wave. rewrite !busy_time_app, busy_time_data.
  unfold led_on_wave, led_off_wave. destruct (led >? 0); cbn [busy_time latch1_wave latch2_wave]; lia.
Qed.

Lemma busy_time_transmit (tx led : Z) (pulses : list Z) :
  busy_time (transmit_wave tx led pulses)
  = 2 * (26075 + 275 * Z.of_nat (List.length pulses) + total pulses).
Proof.
  unfold transmit_wave. rewrite !busy_time_app, busy_time_repeat.
  cbn [busy_time]. lia.
Qed.

Lemma total_app (front back : list Z) : total (front ++ back) = total front + total back.
Proof.
  unfold total. induction front as [|x front IH]; cbn [app fold_right]; lia.
Qed.

Lemma total_wire (bits : list bool) : total (wire bits) = 1500 * Z.of_nat (List.length bits).
Proof.
  induction bits as [|b bits IH]; [reflexivity|].
  rewrite wire_cons, total_app, IH.
  destruct b; cbn [wire_pair total fold_right List.length]; lia.
Qed.

(** X8.  The delays of a [Transmit] call whose array covers [pulse_length]
    entries add up to twice the sum of 26075 microseconds (latches and
    gap), 275 microseconds for each entry played, and the stored low
    durations of the entries played. *)
Theorem Transmit_duration (t r l : Z) (buf : list Z) (h : list Event)
        (a : list Z) (pulse_length : Z) :
  0 <= pulse_length <= Z.of_nat (List.length buf) ->
  exists m' wave,
    Transmit pulse_length (mkMachine (mkNexaCtrl t r l (Some buf)) h a) = Some (tt, m')
    /\ hw m' = h ++ wave
    /\ busy_time wave
       = 2 * (26075 + 275 * pulse_length + total (take (Z.to_nat pulse_length) buf)).
Proof.
  intros Hlen. eexists _, _. split; [apply Transmit_run; lia|].
  split; [reflexivity|].
  rewrite busy_time_transmit, length_take. lia.
Qed.

Lemma Transmit_duration_witness :
  0 <= 2 <= Z.of_nat (List.length [275; 1225; 7])
  /\ exists m' wave,
       Transmit 2 (mkMachine (mkNexaCtrl 3 4 5 (Some [275; 1225; 7])) [] []) = Some (tt, m')
       /\ hw m' = [] ++ wave
       /\ busy_time wave
          = 2 * (26075 + 275 * 2 + total (take (Z.to_nat 2) [275; 1225; 7])).
Proof.
  split; [cbn; lia|].
  apply (Transmit_duration 3 4 5 [275; 1225; 7] [] [] 2). cbn. lia.
Defined.

Lemma played_time (cmd : Command) :
  275 * Z.of_nat (List.length (played cmd)) + total (played cmd)
  = match cmd with CallDeviceDim _ _ _ => 72850 | _ => 65600 end.
Proof.
  destruct cmd; cbn [played];
    rewrite ?length_app, ?total_app, ?total_wire, ?wire_length, ?length_app,
            ?itob_length;
    cbn [List.length total fold_right]; lia.
Qed.

(** X9.  On the allocated array the delays of a command add up to a time
    that does not depend on its arguments: 183350 microseconds for
    [DeviceOn], [DeviceOff], [GroupOn] and [GroupOff], and 197850
    microseconds for [DeviceDim]. *)
Theorem command_duration (t r l : Z) (buf : list Z) (h : list Event)
        (a : list Z) (cmd : Command) :
  List.length buf = 72%nat ->
  exists m' wave,
    call cmd (mkMachine (mkNexaCtrl t r l (Some buf)) h a) = Some (tt, m')
    /\ hw m' = h ++ wave
    /\ busy_time wave
       = match cmd with CallDeviceDim _ _ _ => 197850 | _ => 183350 end.
Proof.
  intros Hlen. destruct (call_run t r l buf h a cmd Hlen) as (frame & Hrun & _).
  eexists _, _. split; [exact Hrun|]. split; [reflexivity|].
  rewrite busy_time_transmit.
  pose proof (played_time cmd) as Htime. destruct cmd; lia.
Qed.

Lemma command_duration_witness :
  List.length (replicate 72 0) = 72%nat
  /\ exists m' wave,
       call (CallDeviceOn 1 3) (mkMachine (mkNexaCtrl 3 4 0 (Some (replicate 72 0))) [] [])
       = Some (tt, m')
       /\ hw m' = [] ++ wave
       /\ busy_time wave = 183350.
Proof.
  split; [reflexivity|].
  apply (command_duration 3 4 0 (replicate 72 0) [] [] (CallDeviceOn 1 3)). reflexivity.
Defined.

(** ** [Transmit] at the edges of the array *)

Lemma Transmit_pulse_run (t r l : Z) (pre post : list Z) (x : Z)
      (h : list Event) (a : list Z) (pulse_count : Z) :
  pulse_count = Z.of_nat (List.length pre) ->
  Transmit_pulse pulse_count
                 (mkMachine (mkNexaCtrl t r l (Some (pre ++ x :: post))) h a)
  = Some (tt, mkMachine (mkNexaCtrl t r l (Some (pre ++ x :: post)))
                        (h ++ [pinSetFast t; delayMicroseconds 275;
                               pinResetFast t; delayMicroseconds x])
                        (a ++ [pulse_count])).
Proof.
  intros Hcount. unfold Transmit_pulse.
  erewrite bind_run by reflexivity.
  erewrite bind_run by reflexivity.
  erewrite bind_run by reflexivity.
  erewrite bind_run by reflexivity.
  erewrite bind_run by (apply load_run; exact Hcount).
  unfold emit. cbn [this hw touched tx_pin_]. rewrite <- !app_assoc. reflexivity.
Qed.

Lemma Transmit_pulse_outside (t r l : Z) (buf : list Z) (h : list Event)
      (a : list Z) (pulse_count : Z) :
  Z.of_nat (List.length buf) <= pulse_count ->
  Transmit_pulse pulse_count (mkMachine (mkNexaCtrl t r l (Some buf)) h a) = None.
Proof.
  intros Hout. unfold Transmit_pulse.
  erewrite bind_run by reflexivity.
  erewrite bind_run by reflexivity.
  erewrite bind_run by reflexivity.
  erewrite bind_run by reflexivity.
  apply bind_fail. unfold load. cbn [this low_pulse_array].
  rewrite in_bounds_false by exact Hout. reflexivity.
Qed.

Lemma data_loop_overrun (t r l : Z) (rest : list Z) :
  forall (n : nat) (i : Z) (pre : list Z) (h : list Event) (a : list Z),
    i = Z.of_nat (List.length pre) -> (List.length rest < n)%nat ->
    for_from n i Transmit_pulse (mkMachine (mkNexaCtrl t r l (Some (pre ++ rest))) h a)
    = None.
Proof.
  induction rest as [|x rest IH]; intros n i pre h a Hi Hn.
  - destruct n as [|n]; [cbn in Hn; lia|]. cbn [for_from].
    apply bind_fail. apply Transmit_pulse_outside.
    rewrite app_nil_r. lia.
  - destruct n as [|n]; [cbn in Hn; lia|]. cbn [for_from].
    erewrite bind_run by (apply Transmit_pulse_run; exact Hi).
    rewrite (cons_middle x pre), (app_assoc pre).
    apply IH; [rewrite length_app; cbn [List.length]; lia | cbn [List.length] in Hn; lia].
Qed.

(** X10.  [Transmit] checks [pulse_length] against nothing.  With a
    [pulse_length] of zero or less it loads no entry, needs no array, and
    emits the two repeats of latches and gap alone; with a [pulse_length]
    above the number of entries of the array its first repeat loads past
    the end of the array. *)
Theorem Transmit_edges (o : NexaCtrl) (t r l : Z) (buf : list Z)
        (h : list Event) (a : list Z) (short long : Z) :
  short <= 0 -> Z.of_nat (List.length buf) < long ->
  Transmit short (mkMachine o h a)
  = Some (tt, mkMachine o (h ++ transmit_wave (tx_pin_ o) (led_pin_ o) []) a)
  /\ Transmit long (mkMachine (mkNexaCtrl t r l (Some buf)) h a) = None.
Proof.
  intros Hshort Hlong. split.
  - assert (Hrepeat : forall count h',
              Transmit_repeat short count (mkMachine o h' a)
              = Some (tt, mkMachine o (h' ++ repeat_wave (tx_pin_ o) (led_pin_ o) []) a)).
    { intros count h'. unfold Transmit_repeat.
      erewrite bind_run by reflexivity. cbn [this].
      erewrite bind_run by apply led_on_run.
      erewrite bind_run by apply TransmitLatch1_run.
      erewrite bind_run by apply TransmitLatch2_run.
      erewrite bind_run.
      2:{ unfold for_loop. replace (Z.to_nat (short - 0)) with 0%nat by lia.
          reflexivity. }
      erewrite bind_run by apply TransmitLatch2_run.
      erewrite bind_run by apply led_off_run.
      unfold emit, repeat_wave, data_wave. cbn [this hw touched flat_map app].
      rewrite <- !app_assoc. reflexivity. }
    unfold Transmit.
    erewrite bind_run by reflexivity.
    erewrite bind_run.
    2:{ unfold for_loop. change (Z.to_nat (2 - 0)) with 2%nat. cbn [for_from].
        erewrite bind_run by apply Hrepeat.
        erewrite bind_run by apply Hrepeat.
        reflexivity. }
    unfold emit, transmit_wave. cbn [this hw touched].
    rewrite <- !app_assoc. reflexivity.
  - unfold Transmit.
    erewrite bind_run by reflexivity.
    apply bind_fail. unfold for_loop. change (Z.to_nat (2 - 0)) with 2%nat.
    cbn [for_from]. apply bind_fail. unfold Transmit_repeat.
    erewrite bind_run by reflexivity. cbn [this led_pin_].
    erewrite bind_run by apply led_on_run.
    erewrite bind_run by apply TransmitLatch1_run.
    erewrite bind_run by apply TransmitLatch2_run.
    apply bind_fail. unfold for_loop.
    apply (data_loop_overrun t r l buf (Z.to_nat (long - 0)) 0 []); [reflexivity | lia].
Qed.

Lemma Transmit_edges_witness :
  (-1 <= 0 /\ Z.of_nat (List.length [275; 1225]) < 3)
  /\ Transmit (-1) (mkMachine (mkNexaCtrl 3 4 0 None) [] [])
     = Some (tt, mkMachine (mkNexaCtrl 3 4 0 None) ([] ++ transmit_wave 3 0 []) [])
  /\ Transmit 3 (mkMachine (mkNexaCtrl 3 4 0 (Some [275; 1225])) [] []) = None.
Proof.
  split; [cbn; lia|].
  apply (Transmit_edges (mkNexaCtrl 3 4 0 None) 3 4 0 [275; 1225] [] [] (-1) 3);
    cbn; lia.
Defined.

(** ** The status pin of an object built without one *)

Lemma NexaCtrl2_run (t0 r0 l0 : Z) (p : option (list Z)) (h : list Event)
      (a : list Z) (tx_pin rx_pin : Z) :
  NexaCtrl2 tx_pin rx_pin (mkMachine (mkNexaCtrl t0 r0 l0 p) h a)
  = Some (tt, mkMachine (mkNexaCtrl tx_pin rx_pin l0 (Some (replicate 72 0)))
                        (h ++ [pinMode tx_pin OUTPUT; pinMode rx_pin INPUT]) a).
Proof.
  unfold NexaCtrl2, bind, assign, self, emit. cbn.
  rewrite <- !app_assoc. reflexivity.
Qed.

(** X11.  The two-argument constructor does not assign [led_pin_]: after it
    the member holds what the storage held before, [l0].  A command on the
    object built this way tests and drives that pin: its waveform is the
    one for status pin [l0], which is raised and lowered around each repeat
    when [l0] is positive. *)
Theorem two_argument_constructor_led_pin (t0 r0 l0 : Z) (p : option (list Z))
        (h : list Event) (a : list Z) (tx_pin rx_pin : Z) (cmd : Command) :
  exists frame,
    (NexaCtrl2 tx_pin rx_pin ;; call cmd) (mkMachine (mkNexaCtrl t0 r0 l0 p) h a)
    = Some (tt, mkMachine (mkNexaCtrl tx_pin rx_pin l0 (Some frame))
                          (h ++ [pinMode tx_pin OUTPUT; pinMode rx_pin INPUT]
                             ++ transmit_wave tx_pin l0 (played cmd))
                          (a ++ accessed cmd))
    /\ (0 < l0 ->
        led_on_wave l0 = [pinSetFast l0] /\ led_off_wave l0 = [digitalWrite l0 LOW]).
Proof.
  destruct (call_run tx_pin rx_pin l0 (replicate 72 0)
              (h ++ [pinMode tx_pin OUTPUT; pinMode rx_pin INPUT]) a cmd)
    as (frame & Hrun & _); [reflexivity|].
  exists frame. split.
  - erewrite bind_run by apply NexaCtrl2_run.
    rewrite Hrun, <- app_assoc. reflexivity.
  - intros Hled. unfold led_on_wave, led_off_wave.
    destruct (Z.gtb_spec l0 0); [split; reflexivity | lia].
Qed.

(** ** Telling calls apart on the air *)

Lemma wire_inj (bits bits' : list bool) : wire bits = wire bits' -> bits = bits'.
Proof.
  revert bits'. induction bits as [|b bits IH]; intros [|b' bits'] Heq.
  - reflexivity.
  - destruct b'; discriminate.
  - destruct b; discriminate.
  - rewrite !wire_cons in Heq.
    destruct b, b'; cbn [wire_pair app] in Heq; try discriminate;
      injection Heq as Heq; f_equal; apply IH; exact Heq.
Qed.

Lemma itob_inj (x y len : Z) :
  0 <= len <= 32 -> 0 <= x < 2 ^ len -> 0 <= y < 2 ^ len ->
  itob x len = itob y len -> x = y.
Proof.
  intros Hlen Hx Hy Heq. apply (f_equal bits_value) in Heq.
  rewrite !itob_msb_first, !bits_value_msb_first in Heq by assumption.
  rewrite Z2Nat.id, !Z.mod_small in Heq by lia. exact Heq.
Qed.

Lemma data_wave_length (tx : Z) (pulses : list Z) :
  List.length (data_wave tx pulses) = (4 * List.length pulses)%nat.
Proof.
  induction pulses as [|low pulses IH]; [reflexivity|].
  unfold data_wave in *. cbn [flat_map app List.length]. rewrite IH. lia.
Qed.

Lemma data_wave_inj (tx : Z) (pulses pulses' : list Z) :
  data_wave tx pulses = data_wave tx pulses' -> pulses = pulses'.
Proof.
  revert pulses'. induction pulses as [|low pulses IH]; intros [|low' pulses'] Heq;
    try discriminate; [reflexivity|].
  unfold data_wave in Heq. cbn [flat_map app] in Heq.
  injection Heq as Hlow Heq. subst low'. f_equal. apply IH. exact Heq.
Qed.

Lemma transmit_wave_inj (tx led : Z) (pulses pulses' : list Z) :
  transmit_wave tx led pulses = transmit_wave tx led pulses' -> pulses = pulses'.
Proof.
  intros Heq.
  assert (Hlen : List.length pulses = List.length pulses').
  { apply (f_equal (@List.length Event)) in Heq.
    unfold transmit_wave, repeat_wave in Heq.
    rewrite !length_app, !data_wave_length in Heq. cbn [List.length] in Heq. lia. }
  unfold transmit_wave in Heq. cbn [app] in Heq. injection Heq as Heq.
  unfold repeat_wave at 1 3 in Heq. rewrite <- !app_assoc in Heq.
  do 3 apply app_inv_head in Heq.
  apply app_inj_1 in Heq; [|rewrite !data_wave_length; lia].
  apply (data_wave_inj tx). apply Heq.
Qed.

Lemma played_inj (cmd cmd' : Command) :
  in_range cmd -> in_range cmd' -> played cmd = played cmd' ->
  forget_level cmd = forget_level cmd'.
Proof.
  intros Hr Hr' Heq.
  assert (Hsize : List.length (played cmd) = List.length (played cmd'))
    by (rewrite Heq; reflexivity).
  destruct cmd as [c d | c d | c d lvl | c | c], cmd' as [c' d' | c' d' | c' d' lvl' | c' | c'];
    cbn [played in_range forget_level] in *;
    try solve [exfalso; revert Hsize;
               rewrite ?length_app, ?wire_length, ?length_app, ?itob_length;
               cbn [List.length]; lia];
    try solve [apply wire_inj in Heq;
               apply app_inj_1 in Heq; [|rewrite !itob_length; reflexivity];
               destruct Heq as [Hc Hd]; cbn [app] in Hd;
               apply (itob_inj c c' 26) in Hc; [|lia..]; subst c';
               first [discriminate Hd
                     | reflexivity
                     | injection Hd as Hd;
                       apply (itob_inj d d' 4) in Hd; [|lia..]; subst d';
                       reflexivity]].
  apply app_inj_1 in Heq;
    [|rewrite !wire_length, !length_app, !itob_length; reflexivity].
  destruct Heq as [Hc Hd]. cbn [app] in Hd. injection Hd as Hd.
  apply wire_inj in Hc, Hd.
  apply app_inj_1 in Hc; [|rewrite !itob_length; reflexivity].
  apply app_inj_1 in Hd; [|rewrite !itob_length; reflexivity].
  destruct Hc as [Hc _], Hd as [Hd _].
  apply (itob_inj c c' 26) in Hc; [|lia..].
  apply (itob_inj d d' 4) in Hd; [|lia..].
  subst. reflexivity.
Qed.
(** X12.  On the allocated array two calls whose identifiers fit their
    fields both return, and they put the same waveform on the air exactly
    when they are the same call, the dim level of a [DeviceDim] call
    apart. *)
Theorem calls_told_apart (t r l : Z) (buf buf' : list Z) (h : list Event)
        (a : list Z) (cmd cmd' : Command) :
  List.length buf = 72%nat -> List.length buf' = 72%nat ->
  in_range cmd -> in_range cmd' ->
  exists m m',
    call cmd (mkMachine (mkNexaCtrl t r l (Some buf)) h a) = Some (tt, m)
    /\ call cmd' (mkMachine (mkNexaCtrl t r l (Some buf')) h a) = Some (tt, m')
    /\ (hw m = hw m' <-> forget_level cmd = forget_level cmd').
Proof.
  intros Hlen Hlen' Hr Hr'.
  destruct (call_run t r l buf h a cmd Hlen) as (frame & Hcall & _).
  destruct (call_run t r l buf' h a cmd' Hlen') as (frame' & Hcall' & _).
  eexists _, _. split; [exact Hcall|]. split; [exact Hcall'|].
  cbn [hw]. split.
  - intros Hsame. apply app_inv_head, transmit_wave_inj in Hsame.
    apply played_inj; assumption.
  - intros Hsame.
    assert (Hforget : forall c, played c = played (forget_level c))
      by (intros []; reflexivity).
    rewrite (Hforget cmd), (Hforget cmd'), Hsame. reflexivity.
Qed.

Lemma calls_told_apart_witness :
  (List.length (replicate 72 0) = 72%nat
   /\ in_range (CallDeviceOn 1 3) /\ in_range (CallDeviceOff 1 3))
  /\ exists m m',
       call (CallDeviceOn 1 3) (mkMachine (mkNexaCtrl 3 4 0 (Some (replicate 72 0))) [] [])
       = Some (tt, m)
       /\ call (CallDeviceOff 1 3)
               (mkMachine (mkNexaCtrl 3 4 0 (Some (replicate 72 0))) [] [])
          = Some (tt, m')
       /\ (hw m = hw m'
           <-> forget_level (CallDeviceOn 1 3) = forget_level (CallDeviceOff 1 3)).
Proof.
  split; [cbn; repeat split; lia|].
  apply (calls_told_apart 3 4 0 (replicate 72 0) (replicate 72 0) [] []
           (CallDeviceOn 1 3) (CallDeviceOff 1 3)); cbn; try reflexivity; lia.
Defined.

(** ** Any number of calls *)

Lemma accessed_within (cmd : Command) : accesses_within 0 71 (accessed cmd).
Proof.
  assert (Hweaken : forall log, accesses_within 0 63 log -> accesses_within 0 71 log).
  { intros log Hlog. unfold accesses_within in *.
    eapply Forall_impl; [exact Hlog|]. intros idx Hidx. cbn beta in *. lia. }
  destruct cmd; cbn [accessed];
    first [apply dim_log_within
          | apply Hweaken, device_log_within
          | apply Hweaken, group_log_within].
Qed.

Lemma transmit_wave_masked (tx led : Z) (pulses : list Z) (later : list Event)
      (enabled : bool) :
  all_masked enabled (transmit_wave tx led pulses ++ later) = all_masked true later
  /\ irq_after enabled (transmit_wave tx led pulses ++ later) = irq_after true later.
Proof.
  unfold transmit_wave. rewrite <- !app_assoc. cbn [app all_masked irq_after].
  destruct (quiet_stays_masked (repeat_wave tx led pulses)
              (repeat_wave tx led pulses ++ interrupts :: later)
              (repeat_wave_quiet tx led pulses)) as [-> ->].
  destruct (quiet_stays_masked (repeat_wave tx led pulses) (interrupts :: later)
              (repeat_wave_quiet tx led pulses)) as [-> ->].
  split; reflexivity.
Qed.

(** X13.  On the allocated array any sequence of calls runs to its end:
    the array keeps its 72 entries and no access leaves it.  The waveform
    of the sequence is the waveforms of the calls one after the other, each
    as if the call were the first on the object; no pin is driven and no
    delay runs with interrupts delivered, and after a non-empty sequence
    they are delivered again. *)
Theorem call_all_runs (cmds : list Command) (t r l : Z) (buf : list Z)
        (h : list Event) (a : list Z) :
  List.length buf = 72%nat ->
  exists frame,
    call_all cmds (mkMachine (mkNexaCtrl t r l (Some buf)) h a)
    = Some (tt, mkMachine (mkNexaCtrl t r l (Some frame))
                          (h ++ flat_map (fun cmd => transmit_wave t l (played cmd)) cmds)
                          (a ++ flat_map accessed cmds))
    /\ List.length frame = 72%nat
    /\ accesses_within 0 71 (flat_map accessed cmds)
    /\ forall enabled,
         all_masked enabled (flat_map (fun cmd => transmit_wave t l (played cmd)) cmds)
         = true
         /\ (cmds <> [] ->
             irq_after enabled
                       (flat_map (fun cmd => transmit_wave t l (played cmd)) cmds)
             = true).
Proof.
  revert buf h a. induction cmds as [|cmd cmds IH]; intros buf h a Hlen.
  - exists buf. cbn [call_all flat_map]. rewrite !app_nil_r.
    split; [reflexivity|]. split; [exact Hlen|]. split; [constructor|].
    intros enabled. split; [reflexivity | congruence].
  - destruct (call_run t r l buf h a cmd Hlen) as (frame1 & Hcall & Hlen1).
    destruct (IH frame1 (h ++ transmit_wave t l (played cmd)) (a ++ accessed cmd) Hlen1)
      as (frame & Hrest & Hlen2 & Hlog & Hirq).
    exists frame. cbn [call_all flat_map].
    split; [erewrite bind_run by exact Hcall; rewrite Hrest, <- !app_assoc; reflexivity|].
    split; [exact Hlen2|].
    split; [apply Forall_app_2; [apply accessed_within | exact Hlog]|].
    intros enabled.
    destruct (transmit_wave_masked t l (played cmd)
                (flat_map (fun cmd => transmit_wave t l (played cmd)) cmds) enabled)
      as [-> ->].
    destruct (Hirq true) as [Hmasked Hafter].
    split; [exact Hmasked|]. intros _.
    destruct cmds as [|cmd' cmds]; [reflexivity|]. apply Hafter. discriminate.
Qed.

Lemma call_all_runs_witness :
  List.length (replicate 72 0) = 72%nat
  /\ exists frame,
       call_all [CallDeviceDim 1 3 50; CallGroupOff 1]
                (mkMachine (mkNexaCtrl 3 4 0 (Some (replicate 72 0))) [] [])
       = Some (tt, mkMachine (mkNexaCtrl 3 4 0 (Some frame))
                     ([] ++ flat_map (fun cmd => transmit_wave 3 0 (played cmd))
                                     [CallDeviceDim 1 3 50; CallGroupOff 1])
                     ([] ++ flat_map accessed [CallDeviceDim 1 3 50; CallGroupOff 1]))
       /\ List.length frame = 72%nat.
Proof.
  split; [reflexivity|].
  destruct (call_all_runs [CallDeviceDim 1 3 50; CallGroupOff 1] 3 4 0
              (replicate 72 0) [] []) as (frame & Hrun & Hlen & _); [reflexivity|].
  exists frame. split; assumption.
Defined.

(** ** The room for the dim bits *)

Lemma frame_split_prefix (buf : list Z) :
  (64 <= List.length buf)%nat ->
  exists C G O D,
    buf = C ++ G ++ O ++ D ++ drop 64 buf /\ List.length C = 52%nat
    /\ List.length G = 2%nat /\ List.length O = 2%nat /\ List.length D = 8%nat.
Proof.
  intros Hlen.
  exists (take 52 buf), (take 2 (drop 52 buf)), (take 2 (drop 54 buf)),
         (take 8 (drop 56 buf)).
  split.
  - rewrite <- (take_drop 52 buf) at 1. f_equal.
    rewrite <- (take_drop 2 (drop 52 buf)) at 1. f_equal.
    rewrite drop_drop. cbn [Nat.add].
    rewrite <- (take_drop 2 (drop 54 buf)) at 1. f_equal.
    rewrite drop_drop. cbn [Nat.add].
    rewrite <- (take_drop 8 (drop 56 buf)) at 1. f_equal.
    rewrite drop_drop. reflexivity.
  - rewrite !length_take, !length_drop. lia.
Qed.

Lemma frame_suffix (C G O D X : list Z) :
  List.length C = 52%nat -> List.length G = 2%nat -> List.length O = 2%nat ->
  List.length D = 8%nat ->
  drop 64 (C ++ G ++ O ++ D ++ X) = X.
Proof.
  intros HC HG HO HD.
  rewrite (app_assoc C G), (app_assoc (C ++ G) O), (app_assoc ((C ++ G) ++ O) D).
  apply drop_app_length'. rewrite !length_app. lia.
Qed.

(** X14.  [DeviceOn], [DeviceOff], [GroupOn] and [GroupOff] need the first
    64 entries of the array only: on an array of at least 64 entries each
    returns, and every entry from entry 64 on is what it was before the
    call. *)
Theorem non_dim_commands_keep_tail (t r l : Z) (buf : list Z) (h : list Event)
        (a : list Z) (controller_id device_id : Z) :
  (64 <= List.length buf)%nat ->
  (exists frame,
     DeviceOn controller_id device_id (mkMachine (mkNexaCtrl t r l (Some buf)) h a)
     = transmitted t r l frame 64 h a device_log
     /\ drop 64 frame = drop 64 buf)
  /\ (exists frame,
        DeviceOff controller_id device_id (mkMachine (mkNexaCtrl t r l (Some buf)) h a)
        = transmitted t r l frame 64 h a device_log
        /\ drop 64 frame = drop 64 buf)
  /\ (exists frame,
        GroupOn controller_id (mkMachine (mkNexaCtrl t r l (Some buf)) h a)
        = transmitted t r l frame 64 h a group_log
        /\ drop 64 frame = drop 64 buf)
  /\ (exists frame,
        GroupOff controller_id (mkMachine (mkNexaCtrl t r l (Some buf)) h a)
        = transmitted t r l frame 64 h a group_log
        /\ drop 64 frame = drop 64 buf).
Proof.
  intros Hlen.
  destruct (frame_split_prefix buf Hlen) as (C & G & O & D & Hbuf & HC & HG & HO & HD).
  set (X := drop 64 buf) in *. clearbody X. subst buf.
  split; [|split; [|split]].
  - eexists. split; [apply DeviceOn_frame; assumption|].
    apply frame_suffix; frame_lengths.
  - eexists. split; [apply DeviceOff_frame; assumption|].
    apply frame_suffix; frame_lengths.
  - eexists. split; [apply GroupOn_frame; assumption|].
    apply frame_suffix; frame_lengths.
  - eexists. split; [apply GroupOff_frame; assumption|].
    apply frame_suffix; frame_lengths.
Qed.

Lemma non_dim_commands_keep_tail_witness :
  (64 <= List.length (replicate 64 0 ++ [11; 12]))%nat
  /\ exists frame,
       GroupOn 1 (mkMachine (mkNexaCtrl 3 4 0 (Some (replicate 64 0 ++ [11; 12]))) [] [])
       = transmitted 3 4 0 frame 64 [] [] group_log
       /\ drop 64 frame = drop 64 (replicate 64 0 ++ [11; 12]).
Proof.
  split; [cbn; lia|].
  destruct (non_dim_commands_keep_tail 3 4 0 (replicate 64 0 ++ [11; 12]) [] [] 1 3)
    as (_ & _ & Hgroup & _); [cbn; lia | exact Hgroup].
Defined.

(** X15.  [DeviceDim] needs the room the constructor adds for the dim bits:
    on an array of [kLowPulseLength] = 64 entries its first dim store, to
    entry 64, falls outside the array. *)
Theorem DeviceDim_needs_dim_room (t r l : Z) (buf : list Z) (h : list Event)
        (a : list Z) (controller_id device_id dim_level : Z) :
  List.length buf = 64%nat ->
  DeviceDim controller_id device_id dim_level
            (mkMachine (mkNexaCtrl t r l (Some buf)) h a) = None.
Proof.
  intros Hlen.
  destruct (frame_split_prefix buf) as (C & G & O & D & Hbuf & HC & HG & HO & HD); [lia|].
  rewrite drop_ge in Hbuf by lia. subst buf. unfold DeviceDim.
  frame_step frame_controller. frame_step frame_group_flag.
  rewrite frame_dim_marker by frame_lengths.
  frame_step frame_device.
  apply bind_fail. unfold for_loop.
  change (Z.to_nat (kDimLength - 0)) with 4%nat. cbn [for_from].
  apply bind_fail. unfold SetBit.
  change (wrap_uint ((kDimOffset + 0) * 2)) with 64.
  destruct (negb _); apply bind_fail; unfold store; cbn [this low_pulse_array];
    rewrite in_bounds_false by frame_lengths; reflexivity.
Qed.

Lemma DeviceDim_needs_dim_room_witness :
  List.length (replicate 64 0) = 64%nat
  /\ DeviceDim 1 3 100 (mkMachine (mkNexaCtrl 3 4 0 (Some (replicate 64 0))) [] []) = None.
Proof.
  split; [reflexivity|].
  apply (DeviceDim_needs_dim_room 3 4 0 (replicate 64 0) [] [] 1 3 100). reflexivity.
Defined.
